(** * requirements-whisperer: the data-preparation pipeline of [data_analyzer.py]

    A shallow embedding of [DataAnalyzer] (load, clean and normalise,
    correlate, split, assemble a model) and of [fetch_external_data],
    followed by the properties the specification states about them.

    Numbers.  pandas stores numeric columns as IEEE-754 binary64, and every
    statistic below is computed in binary64, through the Standard Library's
    executable specification [SpecFloat] (round to nearest even, signed
    zeros, infinities, one NaN), in the order in which numpy and pandas
    carry out the operations: [Series] for the mean and the standard
    deviation of [clean_data], [Corr] for the matrix of [df.corr()]. *)

From Stdlib Require Import String Ascii.
From Stdlib Require Import ZArith List Bool Lia.
From Stdlib Require Import QArith Qround.
From Stdlib Require Import Permutation Sorted.
From Stdlib Require Import Floats.SpecFloat.
Import ListNotations.

Set Warnings "-register-all".

(* ================================================================== *)
(** * Part I: definitions                                              *)
(* ================================================================== *)

(** ** binary64 arithmetic *)

Module F64.
Definition t := spec_float.
Definition prec : Z := 53.
Definition emax : Z := 1024.

Definition nan : t := S754_nan.
Definition zero : t := S754_zero false.

Definition add : t -> t -> t := SFadd prec emax.
Definition sub : t -> t -> t := SFsub prec emax.
Definition mul : t -> t -> t := SFmul prec emax.
Definition div : t -> t -> t := SFdiv prec emax.
Definition sqrt : t -> t := SFsqrt prec emax.
Definition eqb : t -> t -> bool := SFeqb.

(** An integer converted to the nearest binary64 value ([float(n)]). *)
Definition of_Z (z : Z) : t := binary_normalize prec emax z 0 false.
Definition of_nat (n : nat) : t := of_Z (Z.of_nat n).

(** The value a decimal literal [p/q] is read as: the correctly rounded
    quotient (for the literals used below both [p] and [q] are exact). *)
Definition of_ratio (p q : Z) : t := div (of_Z p) (of_Z q).

Definition is_nan (x : t) : bool :=
  match x with S754_nan => true | _ => false end.

Definition is_zero (x : t) : bool :=
  match x with S754_zero _ => true | _ => false end.

(** [math.ceil]; undefined on infinities and NaN. *)
Definition ceil (x : t) : option Z :=
  match x with
  | S754_zero _ => Some 0%Z
  | S754_finite s m e =>
      let v := if s then Zneg m else Zpos m in
      Some (if (0 <=? e)%Z then (v * 2 ^ e)%Z else (- ((- v) / 2 ^ (- e)))%Z)
  | _ => None
  end.

(** The values a difference of two equal numbers can take: a zero, or NaN
    when both are the same infinity. *)
Definition zero_or_nan (x : t) : bool := is_nan x || is_zero x.

(** [1.0] and [-1.0]. *)
Definition one : t := S754_finite false 4503599627370496 (-52).
Definition minus_one : t := S754_finite true 4503599627370496 (-52).

(** [<] and [<=]: false whenever an operand is NaN. *)
Definition ltb : t -> t -> bool := SFltb.
Definition leb : t -> t -> bool := SFleb.

(** [np.isfinite]: neither an infinity nor NaN. *)
Definition isfinite (x : t) : bool :=
  match x with S754_zero _ | S754_finite _ _ _ => true | _ => false end.

(** The encodings that are binary64 values: the mantissa of a finite number
    has 53 bits, or fewer at the least exponent, and the exponent is in
    range.  Every number a table holds is one of them. *)
Definition valid (x : t) : bool := valid_binary prec emax x.
End F64.

(** ** Column statistics in binary64 ([DataFrame.mean], [DataFrame.std])

    pandas computes [mean] as [sum / count] and [std] as the square root of
    the two-pass variance [sum ((avg - v)^2) / (count - ddof)] with
    [ddof = 1]; when [count <= ddof] both [count] and the divisor are replaced
    by NaN.  The columns these functions receive have been through [dropna],
    so the NaN-skipping of pandas never triggers and is not modelled.

    Both sums are numpy's [add.reduce] over the contiguous entries of one
    column: the accumulator starts at the identity [0.0] and receives the
    result of [pairwise_sum] (numpy/_core/src/umath/loops_utils.h.src):
    fewer than 8 values are added in order; up to 128 values are added with
    eight running sums that are combined as a balanced tree, the values left
    over after the last full group of eight being added in order at the end;
    longer arrays are cut in two, the first part a multiple of eight.  (The
    starting values [0.0] and [-0.0] can only influence the sign of a sum
    that is zero.  With the optional bottleneck package pandas would compute
    the standard deviation differently; the model is pandas on numpy
    alone.) *)

Module Series.
(** [r[k] += a[i + k]] for [k = 0 .. 7]. *)
Definition add_lanes (r a : list F64.t) : list F64.t :=
  map (fun p => F64.add (fst p) (snd p)) (combine r a).

(** The loop [for (i = 8; i < n - (n % 8); i += 8)], [blocks] times; returns
    the running sums and the values not yet consumed. *)
Fixpoint add_blocks (blocks : nat) (r a : list F64.t) : list F64.t * list F64.t :=
  match blocks with
  | O => (r, a)
  | S b => add_blocks b (add_lanes r (firstn 8 a)) (skipn 8 a)
  end.

(** [((r[0] + r[1]) + (r[2] + r[3])) + ((r[4] + r[5]) + (r[6] + r[7]))] *)
Definition combine_lanes (r : list F64.t) : F64.t :=
  match r with
  | [r0; r1; r2; r3; r4; r5; r6; r7] =>
      F64.add (F64.add (F64.add r0 r1) (F64.add r2 r3))
              (F64.add (F64.add r4 r5) (F64.add r6 r7))
  | _ => F64.nan
  end.

(** The branch [n <= PW_BLOCKSIZE] (for [8 <= n]). *)
Definition unrolled_sum (a : list F64.t) : F64.t :=
  let (r, rest) := add_blocks (length a / 8 - 1) (firstn 8 a) (skipn 8 a) in
  fold_left F64.add rest (combine_lanes r).

(** [pairwise_sum(a, n)]; the recursion halves the array, so [length a]
    levels are more than it ever descends (see [pairwise_sum_fuel]). *)
Fixpoint pairwise_sum (fuel : nat) (a : list F64.t) : F64.t :=
  let n := length a in
  if (n <? 8)%nat then fold_left F64.add a (S754_zero true)
  else if (n <=? 128)%nat then unrolled_sum a
  else
    match fuel with
    | O => unrolled_sum a
    | S fuel' =>
        let n2 := (n / 2 - (n / 2) mod 8)%nat in
        F64.add (pairwise_sum fuel' (firstn n2 a)) (pairwise_sum fuel' (skipn n2 a))
    end.

Definition sum (xs : list F64.t) : F64.t :=
  F64.add F64.zero (pairwise_sum (length xs) xs).

Definition mean (xs : list F64.t) : F64.t :=
  F64.div (sum xs) (F64.of_nat (length xs)).

Definition ddof : nat := 1.

Definition var (xs : list F64.t) : F64.t :=
  let n := length xs in
  let count := if (n <=? ddof)%nat then F64.nan else F64.of_nat n in
  let d := if (n <=? ddof)%nat then F64.nan else F64.of_nat (n - ddof) in
  let avg := F64.div (sum xs) count in
  let sqr := map (fun v => let e := F64.sub avg v in F64.mul e e) xs in
  F64.div (sum sqr) d.

Definition std (xs : list F64.t) : F64.t := F64.sqrt (var xs).

(** [(col - col.mean()) / col.std()] *)
Definition standardize (xs : list F64.t) : list F64.t :=
  let mu := mean xs in
  let sigma := std xs in
  map (fun v => F64.div (F64.sub v mu) sigma) xs.
End Series.

(** ** Pearson's coefficient in binary64 ([nancorr], pandas/_libs/algos.pyx)

    [DataFrame.corr()] converts the table to a float matrix and, with the
    default [method='pearson'] and [min_periods=1], calls [nancorr]: for each
    pair of columns one pass of Welford's recurrences over the rows in which
    both entries are finite, then [covxy / sqrt(ssqdmx * ssqdmy)], or NaN
    when no row took part or the divisor is zero.  Recent versions of pandas
    clip the quotient to [-1, 1]; earlier ones store it as computed.  The
    flag [clips] tells the two apart. *)

Module Corr.
Record state := {
  nobs : nat;
  meanx : F64.t;
  meany : F64.t;
  ssqdmx : F64.t;
  ssqdmy : F64.t;
  covxy : F64.t
}.

(** [nobs = ssqdmx = ssqdmy = covxy = meanx = meany = 0] *)
Definition start : state :=
  {| nobs := 0; meanx := F64.zero; meany := F64.zero;
     ssqdmx := F64.zero; ssqdmy := F64.zero; covxy := F64.zero |}.

(** The body of [for i in range(N)] on the row holding [vx] and [vy]. *)
Definition step (st : state) (v : F64.t * F64.t) : state :=
  let (vx, vy) := v in
  if F64.isfinite vx && F64.isfinite vy then
    let n := S (nobs st) in
    let dx := F64.sub vx (meanx st) in
    let dy := F64.sub vy (meany st) in
    let mx := F64.add (meanx st) (F64.mul (F64.div F64.one (F64.of_nat n)) dx) in
    let my := F64.add (meany st) (F64.mul (F64.div F64.one (F64.of_nat n)) dy) in
    {| nobs := n; meanx := mx; meany := my;
       ssqdmx := F64.add (ssqdmx st) (F64.mul (F64.sub vx mx) dx);
       ssqdmy := F64.add (ssqdmy st) (F64.mul (F64.sub vy my) dy);
       covxy := F64.add (covxy st) (F64.mul (F64.sub vx mx) dy) |}
  else st.

Definition welford (xs ys : list F64.t) : state :=
  fold_left step (combine xs ys) start.

(** [if val > 1.0: val = 1.0 elif val < -1.0: val = -1.0] *)
Definition clip (val : F64.t) : F64.t :=
  if F64.ltb F64.one val then F64.one
  else if F64.ltb val F64.minus_one then F64.minus_one
  else val.

(** The entry for the columns [xs] and [ys]; [divisor != 0] is true of a NaN
    divisor. *)
Definition coefficient (clips : bool) (xs ys : list F64.t) : F64.t :=
  let st := welford xs ys in
  if (nobs st <? 1)%nat then F64.nan
  else
    let divisor := F64.sqrt (F64.mul (ssqdmx st) (ssqdmy st)) in
    if negb (F64.eqb divisor F64.zero) then
      let val := F64.div (covxy st) divisor in
      if clips then clip val else val
    else F64.nan.

(** [for xi in range(K): for yi in range(xi + 1):
       result[xi, yi] = result[yi, xi] = ...] *)
Definition result_at (clips : bool) (cols : list (list F64.t)) (i j : nat) : F64.t :=
  if (j <=? i)%nat then coefficient clips (nth i cols []) (nth j cols [])
  else coefficient clips (nth j cols []) (nth i cols []).

Definition nancorr (clips : bool) (cols : list (list F64.t)) : list (list F64.t) :=
  let K := length cols in
  map (fun i => map (fun j => result_at clips cols i j) (seq 0 K)) (seq 0 K).

(** What the pass keeps true when both columns are the same one: the two
    means agree and the three sums agree. *)
Definition diagonal_state (st : state) : Prop :=
  meany st = meanx st /\ ssqdmy st = ssqdmx st /\ covxy st = ssqdmx st.
End Corr.

(** ** Python values, exceptions and results *)

(** What [json.load] and [response.json()] return.  A number is given by
    the binary64 value that a numeric column stores for it, so integers too
    large for such a column are outside the model. *)
Inductive json :=
| JNull
| JBool (b : bool)
| JNum (x : F64.t)
| JStr (s : string)
| JArr (items : list json)
| JObj (members : list (string * json)).

Inductive exn_class :=
| ValueError
| FileNotFoundError
| RequestException
| ConnectionError
| ConnectTimeout
| InvalidJSONError
| OtherException.

Record exn := { class : exn_class; message : string }.

(** [isinstance(e, requests.RequestException)]: the class itself and its
    subclasses. *)
Definition is_RequestException (e : exn) : bool :=
  match class e with
  | RequestException | ConnectionError | ConnectTimeout | InvalidJSONError => true
  | ValueError | FileNotFoundError | OtherException => false
  end.

Inductive result (A : Type) :=
| Ok (a : A)
| Raise (e : exn).
Arguments Ok {A} a.
Arguments Raise {A} e.

Definition bind {A B : Type} (m : result A) (k : A -> result B) : result B :=
  match m with
  | Ok a => k a
  | Raise e => Raise e
  end.

Notation "x <- m ;; k" := (bind m (fun x => k))
  (at level 61, m at next level, right associativity).

(** ** Tables *)

(** The dtypes told apart are the numeric one and [object].  A column of
    integers is taken with the dtype and the values that the arithmetic of
    [clean_data] gives it, [float64] and the nearest binary64 values; that
    pandas labels it [int64] until then is not modelled, and such a column
    is within the model up to 8192 rows (beyond, numpy converts and adds it
    in chunks of that size). *)
Inductive dtype := float64 | object.

(** An entry of a [float64] column, or the Python object held by an [object]
    column. *)
Inductive cell :=
| CNum (x : F64.t)
| CObj (o : json).

(** Column labels with their dtypes, and the rows in order; the entries of a
    row follow the order of [columns]. *)
Record DataFrame := { columns : list (string * dtype); rows : list (list cell) }.

Definition is_number (d : dtype) : bool :=
  match d with float64 => true | object => false end.

(** [pandas.isna]: NaN and [None]. *)
Definition isna (c : cell) : bool :=
  match c with
  | CNum x => F64.is_nan x
  | CObj JNull => true
  | CObj (JNum x) => F64.is_nan x
  | CObj _ => false
  end.

Definition has_missing (r : list cell) : bool := existsb isna r.

(** [df.dropna()]: defaults [axis=0], [how='any']. *)
Definition dropna (df : DataFrame) : DataFrame :=
  {| columns := columns df;
     rows := filter (fun r => negb (has_missing r)) (rows df) |}.


Definition to_float (c : cell) : F64.t :=
  match c with CNum x => x | CObj _ => F64.nan end.

(** The entries of column [j], top to bottom. *)
Definition column (j : nat) (rs : list (list cell)) : list F64.t :=
  map (fun r => to_float (nth j r (CObj JNull))) rs.

(** Per column, starting at position [j]: [Some (mean, std)] when
    [select_dtypes(include=[np.number])] selects the column, [None]
    otherwise. *)
Fixpoint stats_from (rs : list (list cell)) (j : nat) (cols : list (string * dtype))
  : list (option (F64.t * F64.t)) :=
  match cols with
  | [] => []
  | (_, d) :: cols' =>
      (if is_number d
       then Some (Series.mean (column j rs), Series.std (column j rs))
       else None) :: stats_from rs (S j) cols'
  end.

Definition column_stats (df : DataFrame) : list (option (F64.t * F64.t)) :=
  stats_from (rows df) 0 (columns df).

Definition standardize_cell (st : option (F64.t * F64.t)) (c : cell) : cell :=
  match st with
  | Some (mu, sigma) => CNum (F64.div (F64.sub (to_float c) mu) sigma)
  | None => c
  end.

Fixpoint standardize_row (sts : list (option (F64.t * F64.t))) (r : list cell)
  : list cell :=
  match sts, r with
  | st :: sts', c :: r' => standardize_cell st c :: standardize_row sts' r'
  | _, _ => r
  end.

(** [df[numeric_cols] = (df[numeric_cols] - df[numeric_cols].mean())
                       / df[numeric_cols].std()] *)
Definition normalize (df : DataFrame) : DataFrame :=
  {| columns := columns df;
     rows := map (standardize_row (column_stats df)) (rows df) |}.

(** [df.iloc[:, :-1]] and [df.iloc[:, -1]] *)
Definition iloc_features (df : DataFrame) : DataFrame :=
  {| columns := removelast (columns df); rows := map (@removelast cell) (rows df) |}.

Definition iloc_target (df : DataFrame) : list cell :=
  map (fun r => last r (CObj JNull)) (rows df).

(** ** [df.corr()] and the heat map

    A table all of whose columns are numeric is converted to its float
    matrix, and the result carries the column labels on both sides.  What a
    table with an [object] column gives (an error for text, in pandas 2) is
    left to the environment, and so is the drawing itself. *)

Definition numeric_only (df : DataFrame) : bool :=
  forallb (fun c => is_number (snd c)) (columns df).

Definition to_columns (df : DataFrame) : list (list F64.t) :=
  map (fun j => column j (rows df)) (seq 0 (length (columns df))).

Section Heatmap.
Variable clips : bool.
Variable corr_other : DataFrame -> result DataFrame.
Variable image : Type.
Variable draw : DataFrame -> result image.

Definition DataFrame_corr (df : DataFrame) : result DataFrame :=
  if numeric_only df then
    Ok {| columns := columns df;
          rows := map (map CNum) (Corr.nancorr clips (to_columns df)) |}
  else corr_other df.

(** [sns.heatmap(self.processed_data.corr(), annot=True, cmap='coolwarm')] *)
Definition sns_heatmap (df : DataFrame) : result image :=
  matrix <- DataFrame_corr df ;;
  draw matrix.
End Heatmap.
Arguments sns_heatmap clips corr_other {image} draw df.

(** The entry in row [i] and column [j] of a numeric table. *)
Definition entry (df : DataFrame) (i j : nat) : F64.t :=
  to_float (nth j (nth i (rows df) []) (CObj JNull)).

(** ** [pd.DataFrame(raw_data)] for a list of records *)

Definition keys (members : list (string * json)) : list string := map fst members.

(** A Python dict keeps the first position of a key and its last value. *)
Definition dict_get (k : string) (members : list (string * json)) : option json :=
  option_map snd (find (fun kv => String.eqb (fst kv) k) (rev members)).

(** Labels in order of first appearance. *)
Fixpoint unique (seen : list string) (ks : list string) : list string :=
  match ks with
  | [] => []
  | k :: ks' =>
      if existsb (String.eqb k) seen then unique seen ks'
      else k :: unique (k :: seen) ks'
  end.

Definition union_keys (recs : list (list (string * json))) : list string :=
  unique [] (concat (map keys recs)).

(** A missing key reads as NaN. *)
Definition record_value (k : string) (rec : list (string * json)) : json :=
  match dict_get k rec with Some v => v | None => JNum F64.nan end.

(** A column is [float64] when it holds numbers and gaps only, and at least
    one number. *)
Definition numeric_or_gap (v : json) : bool :=
  match v with JNum _ | JNull => true | _ => false end.

Definition infer_dtype (vs : list json) : dtype :=
  if forallb numeric_or_gap vs
     && existsb (fun v => match v with JNum _ => true | _ => false end) vs
  then float64 else object.

Definition to_cell (d : dtype) (v : json) : cell :=
  match d, v with
  | float64, JNum x => CNum x
  | float64, _ => CNum F64.nan
  | object, _ => CObj v
  end.

Definition DataFrame_records (recs : list (list (string * json))) : DataFrame :=
  let labels := union_keys recs in
  let dtypes := map (fun k => infer_dtype (map (record_value k) recs)) labels in
  {| columns := combine labels dtypes;
     rows := map (fun rec =>
                    map (fun kd : string * dtype =>
                           to_cell (snd kd) (record_value (fst kd) rec))
                        (combine labels dtypes))
                 recs |}.

Definition as_record (v : json) : option (list (string * json)) :=
  match v with JObj members => Some members | _ => None end.

Fixpoint as_records (items : list json) : option (list (list (string * json))) :=
  match items with
  | [] => Some []
  | v :: items' =>
      match as_record v, as_records items' with
      | Some r, Some rs => Some (r :: rs)
      | _, _ => None
      end
  end.

(** ** The analyzer *)

Record DataAnalyzer := { data_source : string; processed_data : option DataFrame }.

(** [DataAnalyzer(data_source)] *)
Definition init (data_source : string) : DataAnalyzer :=
  {| data_source := data_source; processed_data := None |}.

Definition set_processed_data (self : DataAnalyzer) (df : DataFrame) : DataAnalyzer :=
  {| data_source := data_source self; processed_data := Some df |}.

(** [str.endswith] *)
Definition endswith (s suffix : string) : bool :=
  let n := String.length s in
  let m := String.length suffix in
  (m <=? n)%nat && String.eqb (substring (n - m) m s) suffix.

Section Loader.
(** The file system and the parsers are the environment of [load_data]:
    [pd.read_csv(path)], [json.load(open(path))], and [pd.DataFrame] on a
    decoded document that is not a list of records. *)
Variable read_csv : string -> result DataFrame.
Variable json_load : string -> result json.
Variable DataFrame_other : json -> result DataFrame.

Definition pd_DataFrame (raw_data : json) : result DataFrame :=
  match raw_data with
  | JArr items =>
      match as_records items with
      | Some recs => Ok (DataFrame_records recs)
      | None => DataFrame_other raw_data
      end
  | _ => DataFrame_other raw_data
  end.

Definition load_data (self : DataAnalyzer) : result DataAnalyzer :=
  if endswith (data_source self) ".csv" then
    df <- read_csv (data_source self) ;;
    Ok (set_processed_data self df)
  else if endswith (data_source self) ".json" then
    raw_data <- json_load (data_source self) ;;
    df <- pd_DataFrame raw_data ;;
    Ok (set_processed_data self df)
  else Ok self.
End Loader.

Definition clean_data (self : DataAnalyzer) : DataAnalyzer :=
  match processed_data self with
  | Some df => set_processed_data self (normalize (dropna df))
  | None => self
  end.

(** ** [sklearn.model_selection.train_test_split] *)

(** [_safe_indexing]: the entries at the given positions, in that order.
    The positions come from a permutation of [range(len(xs))], so none is out
    of range. *)
Definition take {A : Type} (xs : list A) (positions : list nat) : list A :=
  flat_map (fun i => match nth_error xs i with Some x => [x] | None => [] end)
           positions.

(** [_validate_shuffle_split] for a float [test_size] and [train_size=None]:
    [n_test = ceil(test_size * n_samples)], [n_train = n_samples - n_test],
    and an empty training set is an error.  The product is taken over the
    rationals; for [test_size = 0.2] the ceiling of the binary64 product is the
    same (checked in [binary64_test_share_agrees]).  Of the texts of the
    two errors only the distinctive part is kept; scikit-learn's also name
    [n_samples], [test_size] and [train_size]. *)
Definition validate_shuffle_split (n_samples : nat) (test_size : Q)
  : result (nat * nat) :=
  if Qle_bool test_size 0 || Qle_bool 1 test_size then
    Raise {| class := ValueError; message := "test_size should be in the (0, 1) range" |}
  else
    let n_test := Z.to_nat (Qceiling (test_size * inject_Z (Z.of_nat n_samples))) in
    let n_train := (n_samples - n_test)%nat in
    if (n_train =? 0)%nat then
      Raise {| class := ValueError; message := "the resulting train set will be empty" |}
    else Ok (n_train, n_test).

(** The same count with the product taken in binary64, as the code does. *)
Definition binary64_n_test (n_samples : nat) : option Z :=
  F64.ceil (F64.mul (F64.of_ratio 2 10) (F64.of_nat n_samples)).

Record Split := {
  train_index : list nat;
  test_index : list nat;
  X_train : DataFrame;
  X_test : DataFrame;
  y_train : list cell;
  y_test : list cell
}.

Section Splitter.
(** numpy's generator: its state, [RandomState(seed)], and
    [rng.permutation(n)], which returns the shuffled [range(n)] and leaves
    the generator advanced. *)
Variable rng : Type.
Variable RandomState : Z -> rng.
Variable permutation : rng -> nat -> list nat * rng.

(** [check_random_state]: an integer seeds a fresh generator, [None] is the
    process-wide one. *)
Definition check_random_state (random_state : option Z) (global : rng) : rng :=
  match random_state with
  | Some seed => RandomState seed
  | None => global
  end.

(** [ShuffleSplit]: the first [n_test] shuffled positions are the
    evaluation rows, the next [n_train] the training rows.  The second
    component is the process-wide generator afterwards. *)
Definition shuffle_split (n_samples : nat) (test_size : Q)
           (random_state : option Z) (global : rng)
  : result (list nat * list nat) * rng :=
  match validate_shuffle_split n_samples test_size with
  | Raise e => (Raise e, global)
  | Ok (n_train, n_test) =>
      let (perm, after) :=
        permutation (check_random_state random_state global) n_samples in
      (Ok (firstn n_train (skipn n_test perm), firstn n_test perm),
       match random_state with Some _ => global | None => after end)
  end.

Definition train_test_split (X : DataFrame) (y : list cell) (test_size : Q)
           (random_state : option Z) (global : rng) : result Split * rng :=
  let (r, global') :=
    shuffle_split (length (rows X)) test_size random_state global in
  (idx <- r ;;
   Ok {| train_index := fst idx;
         test_index := snd idx;
         X_train := {| columns := columns X; rows := take (rows X) (fst idx) |};
         X_test := {| columns := columns X; rows := take (rows X) (snd idx) |};
         y_train := take y (fst idx);
         y_test := take y (snd idx) |},
   global').
End Splitter.
Arguments check_random_state {rng} RandomState random_state global.
Arguments shuffle_split {rng} RandomState permutation n_samples test_size random_state global.
Arguments train_test_split {rng} RandomState permutation X y test_size random_state global.

(** ** The model specification *)

Record Dense := { units : nat; activation : string }.

Record Model := {
  input_shape : nat;
  layers : list Dense;
  optimizer : option string;
  loss : option string;
  metrics : list string
}.

(** [tf.keras.Sequential([...])] with the first layer's [input_shape=(n,)] *)
Definition Sequential (n : nat) (ls : list Dense) : Model :=
  {| input_shape := n; layers := ls; optimizer := None; loss := None; metrics := [] |}.

(** [model.compile(optimizer=..., loss=..., metrics=...)] *)
Definition compile (m : Model) (opt lss : string) (mtr : list string) : Model :=
  {| input_shape := input_shape m; layers := layers m;
     optimizer := Some opt; loss := Some lss; metrics := mtr |}.

Section ModelBuilder.
Variable rng : Type.
Variable RandomState : Z -> rng.
Variable permutation : rng -> nat -> list nat * rng.

(** [train_test_split(X, y, test_size=0.2, random_state=seed)] on the
    features and the target of a table. *)
Definition split_rows (seed : Z) (df : DataFrame) (global : rng)
  : result Split * rng :=
  let X := iloc_features df in
  let y := iloc_target df in
  train_test_split RandomState permutation X y 0.2 (Some seed) global.

(** The split that [build_ml_model] performs: the seed is 42. *)
Definition split_data : DataFrame -> rng -> result Split * rng := split_rows 42.

(** [None] in the result is Python's [None]: the function fell off its
    end. *)
Definition build_ml_model (self : DataAnalyzer) (global : rng)
  : result (option Model) * rng :=
  match processed_data self with
  | Some df =>
      if (1 <? length (columns df))%nat then
        let (r, global') := split_data df global in
        (s <- r ;;
         let model :=
           Sequential (length (columns (X_train s)))
                      [ {| units := 64; activation := "relu" |};
                        {| units := 32; activation := "relu" |};
                        {| units := 1; activation := "sigmoid" |} ] in
         Ok (Some (compile model "adam" "binary_crossentropy" ["accuracy"%string])),
         global')
      else (Ok None, global)
  | None => (Ok None, global)
  end.
End ModelBuilder.
Arguments split_rows {rng} RandomState permutation seed df global.
Arguments split_data {rng} RandomState permutation _ _.
Arguments build_ml_model {rng} RandomState permutation self global.

(** ** [fetch_external_data] *)

(** A response: its status code and what [response.json()] does. *)
Record Response := { status_code : Z; json_body : result json }.

Section Fetcher.
(** [requests.get(url, timeout=...)] *)
Variable requests_get : string -> Z -> result Response.

(** The returned value is a Python value, [JNull] being [None]; the second
    component is what was printed. *)
Definition fetch_external_data (api_url : string) : result json * list string :=
  let body : result (option json) :=
    response <- requests_get api_url 30%Z ;;
    if (status_code response =? 200)%Z then
      v <- json_body response ;; Ok (Some v)
    else Ok None in
  match body with
  | Ok (Some v) => (Ok v, [])
  | Ok None => (Ok JNull, [])
  | Raise e =>
      if is_RequestException e
      then (Ok JNull, [("Error fetching data: " ++ message e)%string])
      else (Raise e, [])
  end.
End Fetcher.

(** ** Sample data and environments for the examples *)

Module Sample.
Definition tenth : F64.t := F64.of_ratio 1 10.
Definition num (z : Z) : cell := CNum (F64.of_Z z).

(** The column 0.1, 0.2, 0.4, 0.7. *)
Definition fractions : list F64.t :=
  [F64.of_ratio 1 10; F64.of_ratio 2 10; F64.of_ratio 4 10; F64.of_ratio 7 10].

(** A constant column of 0.1, three rows. *)
Definition tenths : DataFrame :=
  {| columns := [("x"%string, float64)];
     rows := [[CNum tenth]; [CNum tenth]; [CNum tenth]] |}.

(** A constant column of 2, three rows. *)
Definition twos : DataFrame :=
  {| columns := [("x"%string, float64)];
     rows := [[num 2]; [num 2]; [num 2]] |}.

(** Two columns, one row. *)
Definition one_row : DataFrame :=
  {| columns := [("x"%string, float64); ("label"%string, float64)];
     rows := [[num 7; num 1]] |}.

(** Three rows, the middle one with a gap. *)
Definition with_gap : DataFrame :=
  {| columns := [("x"%string, float64); ("name"%string, object)];
     rows := [[num 1; CObj (JStr "a")];
              [CNum F64.nan; CObj (JStr "b")];
              [num 3; CObj (JStr "c")]] |}.

Definition complete : DataFrame :=
  {| columns := [("x"%string, float64); ("name"%string, object)];
     rows := [[num 1; CObj (JStr "a")]; [num 3; CObj (JStr "c")]] |}.

(** Two columns, one hundred rows. *)
Definition hundred_rows : DataFrame :=
  {| columns := [("x"%string, float64); ("label"%string, float64)];
     rows := map (fun i => [num (Z.of_nat i); num (Z.of_nat (i mod 2))])
                 (seq 0 100) |}.



(** Two columns, three rows: 1, 2, 3 and 1, 3, 2. *)
Definition pair : DataFrame :=
  {| columns := [("x"%string, float64); ("y"%string, float64)];
     rows := [[num 1; num 1]; [num 2; num 3]; [num 3; num 2]] |}.

(** Two columns, three rows: 2, 2, 7 and 0, 0, 1. *)
Definition steps : DataFrame :=
  {| columns := [("x"%string, float64); ("y"%string, float64)];
     rows := [[num 2; num 0]; [num 2; num 0]; [num 7; num 1]] |}.

(** One column: 1e80, -1e80, 0. *)
Definition wide : DataFrame :=
  {| columns := [("x"%string, float64)];
     rows := [[num (10 ^ 80)]; [num (- 10 ^ 80)]; [num 0]] |}.

(** One column: [2.0 ** -300], its opposite, 0. *)
Definition narrow : DataFrame :=
  {| columns := [("x"%string, float64)];
     rows := [[CNum (F64.of_ratio 1 (2 ^ 300))];
              [CNum (F64.of_ratio (-1) (2 ^ 300))];
              [num 0]] |}.

Definition analyzer (src : string) (df : DataFrame) : DataAnalyzer :=
  {| data_source := src; processed_data := Some df |}.

(** A generator whose state is a counter and whose shuffle is a rotation
    by that counter. *)
Definition RandomState (seed : Z) : nat := Z.to_nat seed.
Definition permutation (g n : nat) : list nat * nat :=
  (skipn (g mod n) (seq 0 n) ++ firstn (g mod n) (seq 0 n), S g).

(** A file system with one CSV file and one JSON file. *)
Definition records : list (list (string * json)) :=
  [ [("id"%string, JNum (F64.of_Z 1)); ("name"%string, JStr "a")];
    [("id"%string, JNum (F64.of_Z 2)); ("score"%string, JNum (F64.of_Z 5))] ].

Definition missing_file : exn :=
  {| class := FileNotFoundError; message := "No such file or directory" |}.

Definition read_csv (path : string) : result DataFrame :=
  if String.eqb path "data.csv" then Ok complete else Raise missing_file.

Definition json_load (path : string) : result json :=
  if String.eqb path "data.json" then Ok (JArr (map JObj records))
  else Raise missing_file.

Definition DataFrame_other (raw_data : json) : result DataFrame :=
  Raise {| class := ValueError; message := "DataFrame constructor not properly called!" |}.

(** Servers: one answers 200, one answers 201, one is unreachable. *)
Definition payload : json := JObj [("login"%string, JStr "octocat")].

Definition get_200 (url : string) (timeout : Z) : result Response :=
  Ok {| status_code := 200; json_body := Ok payload |}.

Definition get_201 (url : string) (timeout : Z) : result Response :=
  Ok {| status_code := 201; json_body := Ok payload |}.

Definition unreachable (url : string) (timeout : Z) : result Response :=
  Raise {| class := ConnectionError; message := "Max retries exceeded" |}.
End Sample.

(** ** The pipeline as a program with effects

    The stages of [analyze_data] and of the script body change three things
    outside the analyzer: the files on disk ([plt.savefig]), the standard
    output ([print]) and numpy's process-wide generator.  They are threaded
    through a state-and-exception monad: an exception stops the run and
    leaves the world as it was at that point. *)

Section Effects.
Variable image : Type.
Variable rng : Type.

Record World := {
  files : list (string * image);
  stdout : list string;
  np_random : rng
}.

Definition M (A : Type) : Type := World -> result A * World.

Definition ret {A : Type} (a : A) : M A := fun w => (Ok a, w).

Definition bindM {A B : Type} (m : M A) (k : A -> M B) : M B :=
  fun w =>
    match m w with
    | (Ok a, w') => k a w'
    | (Raise e, w') => (Raise e, w')
    end.

(** A computation without effects. *)
Definition lift {A : Type} (r : result A) : M A := fun w => (r, w).

(** Writing a file creates it or replaces the one of that name. *)
Definition write_file (path : string) (content : image)
           (fs : list (string * image)) : list (string * image) :=
  (path, content) :: filter (fun entry => negb (String.eqb (fst entry) path)) fs.

Definition read_file (path : string) (fs : list (string * image)) : option image :=
  option_map snd (find (fun entry => String.eqb (fst entry) path) fs).

Definition savefig (path : string) (content : image) : M unit :=
  fun w => (Ok tt, {| files := write_file path content (files w);
                      stdout := stdout w;
                      np_random := np_random w |}).

Definition print (line : string) : M unit :=
  fun w => (Ok tt, {| files := files w;
                      stdout := stdout w ++ [line];
                      np_random := np_random w |}).
End Effects.
Arguments write_file {image} path content fs.
Arguments read_file {image} path fs.
Arguments files {image rng} _.
Arguments stdout {image rng} _.
Arguments np_random {image rng} _.
Arguments ret {image rng A} a _.
Arguments bindM {image rng A B} m k _.
Arguments lift {image rng A} r _.
Arguments savefig {image rng} path content _.
Arguments print {image rng} line _.

Notation "x <~ m ;; k" := (bindM m (fun x => k))
  (at level 61, m at next level, right associativity).

Section Service.
(** The environment: the parsers of [load_data], the heat map of
    [df.corr()] (which can fail, for instance on text columns; it is
    [sns_heatmap] above, for the installed pandas and a drawing routine),
    numpy's generator, and the network. *)
Variable read_csv : string -> result DataFrame.
Variable json_load : string -> result json.
Variable DataFrame_other : json -> result DataFrame.
Variable image : Type.
Variable heatmap : DataFrame -> result image.
Variable rng : Type.
Variable RandomState : Z -> rng.
Variable permutation : rng -> nat -> list nat * rng.
Variable requests_get : string -> Z -> result Response.

(** [generate_visualizations]: nothing without a table; otherwise draw, then
    save to the fixed path. *)
Definition generate_visualizations (self : DataAnalyzer) : M image rng unit :=
  match processed_data self with
  | Some df =>
      figure <~ lift (heatmap df) ;;
      savefig "correlation_matrix.png" figure
  | None => ret tt
  end.

(** The [/analyze] endpoint of [create_api_server]. *)
Definition analyze_data (data_path : string)
  : M image rng (list (string * string)) :=
  analyzer <~ lift (load_data read_csv json_load DataFrame_other (init data_path)) ;;
  _ <~ generate_visualizations (clean_data analyzer) ;;
  ret [("message", "Analysis completed successfully")]%string.

(** [build_ml_model] with the process-wide generator taken from the world. *)
Definition build_ml_model_M (self : DataAnalyzer) : M image rng (option Model) :=
  fun w =>
    let (r, g) := build_ml_model RandomState permutation self (np_random w) in
    (r, {| files := files w; stdout := stdout w; np_random := g |}).

(** [fetch_external_data] with its output appended to the standard output. *)
Definition fetch_external_data_M (api_url : string) : M image rng json :=
  fun w =>
    let (r, printed) := fetch_external_data requests_get api_url in
    (r, {| files := files w; stdout := stdout w ++ printed;
           np_random := np_random w |}).

(** The body of [if __name__ == "__main__"]. *)
Definition main : M image rng unit :=
  analyzer <~ lift (load_data read_csv json_load DataFrame_other
                              (init "sample_data.csv")) ;;
  let analyzer := clean_data analyzer in
  _ <~ generate_visualizations analyzer ;;
  model <~ build_ml_model_M analyzer ;;
  external_data <~ fetch_external_data_M "https://api.github.com/users/octocat" ;;
  print "Data analysis completed successfully!".
End Service.
Arguments generate_visualizations {image} heatmap {rng} self _.
Arguments analyze_data read_csv json_load DataFrame_other {image} heatmap {rng} data_path _.
Arguments build_ml_model_M {image rng} RandomState permutation self _.
Arguments fetch_external_data_M {image rng} requests_get api_url _.
Arguments main read_csv json_load DataFrame_other {image} heatmap {rng}
  RandomState permutation requests_get _.

(** ** [config_service.process_payment] *)

Record Receipt := {
  status : string;
  transaction_id : string;
  merchant_id : string;
  amount : F64.t;
  fee : F64.t;
  net_amount : F64.t;
  currency : string;
  processor : string
}.

Module Payment.
(** [<] and [<=] of Python floats: false whenever an operand is NaN. *)
Definition ltb : F64.t -> F64.t -> bool := SFltb.
Definition leb : F64.t -> F64.t -> bool := SFleb.

Definition processing_fee : F64.t := F64.of_ratio 29 1000.
Definition minimum_amount : F64.t := F64.of_ratio 50 100.
Definition maximum_amount : F64.t := F64.of_ratio 99999999 100.

(** [timestamp] is [datetime.now().strftime('%Y%m%d%H%M%S')]; [currency]
    defaults to ["USD"] at the call. *)
Definition process_payment (timestamp : string) (amount : F64.t) (currency : string)
  : result Receipt :=
  if ltb amount minimum_amount then
    Raise {| class := ValueError; message := "Amount must be at least $0.5" |}
  else if ltb maximum_amount amount then
    Raise {| class := ValueError; message := "Amount cannot exceed $999999.99" |}
  else
    let fee := F64.mul amount processing_fee in
    let net_amount := F64.sub amount fee in
    Ok {| status := "success";
          transaction_id := "txn_" ++ timestamp;
          merchant_id := "merchant_12345";
          amount := amount;
          fee := fee;
          net_amount := net_amount;
          currency := currency;
          processor := "stripe" |}.
End Payment.

(** ** More sample environments *)

Module Demo.
(** A request interrupted from the keyboard: [KeyboardInterrupt] is not a
    [RequestException]. *)
Definition interrupted : exn := {| class := OtherException; message := "KeyboardInterrupt" |}.

Definition get_interrupted (url : string) (timeout : Z) : result Response :=
  Raise interrupted.

(** [df.corr()] on a table with a text column, as pandas 2 answers. *)
Definition corr_other (df : DataFrame) : result DataFrame :=
  Raise {| class := ValueError; message := "could not convert string to float" |}.

(** Pictures are described by the matrix they were drawn from. *)
Definition draw (matrix : DataFrame) : result DataFrame := Ok matrix.

Definition heatmap : DataFrame -> result DataFrame := sns_heatmap true corr_other draw.

(** The matrix of a numeric-only table. *)
Definition matrix_of (df : DataFrame) : DataFrame :=
  {| columns := columns df;
     rows := map (map CNum) (Corr.nancorr true (to_columns df)) |}.

Definition read_csv (path : string) : result DataFrame :=
  if String.eqb path "sample_data.csv" then Ok Sample.hundred_rows
  else if String.eqb path "short.csv" then Ok Sample.one_row
  else if String.eqb path "gap.csv" then Ok Sample.with_gap
  else Raise Sample.missing_file.

(** A disk on which every delimited-text file holds the one-row table. *)
Definition read_short (path : string) : result DataFrame := Ok Sample.one_row.

Definition world : World DataFrame nat :=
  {| files := []; stdout := []; np_random := 0%nat |}.
End Demo.

(* ================================================================== *)
(** * Part II: properties                                              *)
(* ================================================================== *)

(** ** binary64: zeros and NaN *)

Lemma div_zero_or_nan x y :
  F64.zero_or_nan x = true -> F64.zero_or_nan y = true -> F64.div x y = F64.nan.
Proof. destruct x, y; simpl; try discriminate; reflexivity. Qed.

Lemma div_keeps_zero_or_nan x y :
  F64.zero_or_nan x = true -> F64.zero_or_nan (F64.div x y) = true.
Proof. destruct x, y; simpl; try discriminate; reflexivity. Qed.

Lemma sqrt_keeps_zero_or_nan x :
  F64.zero_or_nan x = true -> F64.zero_or_nan (F64.sqrt x) = true.
Proof. destruct x as [[]|[]| |]; simpl; try discriminate; reflexivity. Qed.

Lemma square_keeps_zero_or_nan x :
  F64.zero_or_nan x = true -> F64.zero_or_nan (F64.mul x x) = true.
Proof. destruct x; simpl; try discriminate; reflexivity. Qed.

Lemma add_keeps_zero_or_nan x y :
  F64.zero_or_nan x = true -> F64.zero_or_nan y = true -> F64.zero_or_nan (F64.add x y) = true.
Proof.
  destruct x as [[]|[]| |], y as [[]|[]| |]; simpl; try discriminate; reflexivity.
Qed.

Lemma eqb_finite_inv sx mx ex sy my ey :
  F64.eqb (S754_finite sx mx ex) (S754_finite sy my ey) = true ->
  sx = sy /\ mx = my /\ ex = ey.
Proof.
  unfold F64.eqb, SFeqb, SFcompare. intros H.
  destruct sx, sy; try discriminate;
    destruct (Z.compare_spec ex ey); try discriminate;
    change (Pos.compare_cont Eq mx my) with (Pos.compare mx my) in H;
    destruct (Pos.compare_spec mx my); try discriminate; auto.
Qed.

Lemma sub_equal_zero_or_nan x y :
  F64.eqb x y = true -> F64.zero_or_nan (F64.sub x y) = true.
Proof.
  destruct x as [sx|sx| |sx mx ex], y as [sy|sy| |sy my ey]; simpl;
    try discriminate;
    try (destruct sx, sy; simpl; try discriminate; reflexivity).
  intros H. apply eqb_finite_inv in H. destruct H as (-> & -> & ->).
  rewrite Z.min_id, Z.sub_diag. reflexivity.
Qed.

Lemma eqb_sym x y : F64.eqb x y = true -> F64.eqb y x = true.
Proof.
  destruct x as [sx|sx| |sx mx ex], y as [sy|sy| |sy my ey];
    try discriminate; try reflexivity;
    try (destruct sx, sy; (discriminate || reflexivity)).
  intros H. destruct (eqb_finite_inv _ _ _ _ _ _ H) as (-> & -> & ->). exact H.
Qed.

Lemma div_by_nan x : F64.div x F64.nan = F64.nan.
Proof. destruct x; reflexivity. Qed.

Lemma SFcompare_antisym (a b : F64.t) :
  SFcompare b a = option_map CompOpp (SFcompare a b).
Proof.
  destruct a as [sa|sa| |sa ma ea], b as [sb|sb| |sb mb eb]; try reflexivity;
    try (destruct sa, sb; reflexivity); try (destruct sa; reflexivity);
    try (destruct sb; reflexivity).
  unfold SFcompare.
  change (Pos.compare_cont Eq mb ma) with (mb ?= ma)%positive.
  change (Pos.compare_cont Eq ma mb) with (ma ?= mb)%positive.
  rewrite (Z.compare_antisym ea eb), (Pos.compare_antisym ma mb).
  destruct sa, sb, (ea ?= eb)%Z, (ma ?= mb)%positive; reflexivity.
Qed.

Lemma ltb_false_leb (a b : F64.t) :
  F64.is_nan a = false -> F64.is_nan b = false ->
  Payment.ltb a b = false <-> Payment.leb b a = true.
Proof.
  intros Ha Hb. unfold Payment.ltb, Payment.leb, SFltb, SFleb.
  rewrite (SFcompare_antisym a b).
  destruct (SFcompare a b) as [[| |]|] eqn:E; cbn [option_map CompOpp];
    try (split; (reflexivity || discriminate)).
  destruct a, b; try discriminate; simpl in E; try discriminate;
    repeat match goal with s : bool |- _ => destruct s end; discriminate.
Qed.

(** Subtracting [0.0] changes nothing, not even the sign of a zero. *)
Lemma sub_zero x : F64.sub x F64.zero = x.
Proof. destruct x as [[]|[]| |]; try reflexivity. Qed.

(** *** Exact quotients: [x / x] and [x / 1] *)

Lemma div_eucl_exact a b : (0 < b)%Z -> Z.div_eucl (a * b) b = (a, 0%Z).
Proof.
  intros Hb. pose proof (Z_div_mod (a * b) b ltac:(lia)) as H.
  destruct (Z.div_eucl (a * b) b) as [q r]. destruct H as [E Hr].
  assert (q = a) by nia. subst q. f_equal. lia.
Qed.

Lemma div_eucl_shiftl_self m k :
  IntDef.Z.div_eucl (IntDef.Z.shiftl (Z.pos m) (Z.pos k)) (Z.pos m) = (2 ^ Z.pos k, 0)%Z.
Proof.
  change (Z.div_eucl (Z.shiftl (Z.pos m) (Z.pos k)) (Z.pos m) = (2 ^ Z.pos k, 0)%Z).
  rewrite Z.shiftl_mul_pow2 by lia. rewrite Z.mul_comm.
  apply div_eucl_exact. lia.
Qed.

Lemma div_eucl_shiftl_pow2 m k j :
  (j <= k)%positive ->
  IntDef.Z.div_eucl (IntDef.Z.shiftl (Z.pos m) (Z.pos k)) (2 ^ Z.pos j)
  = (Z.pos m * 2 ^ (Z.pos k - Z.pos j), 0)%Z.
Proof.
  intros Hjk.
  change (Z.div_eucl (Z.shiftl (Z.pos m) (Z.pos k)) (2 ^ Z.pos j)
          = (Z.pos m * 2 ^ (Z.pos k - Z.pos j), 0)%Z).
  rewrite Z.shiftl_mul_pow2 by lia.
  replace (Z.pos k) with ((Z.pos k - Z.pos j) + Z.pos j)%Z at 1 by lia.
  rewrite Z.pow_add_r by lia. rewrite Z.mul_assoc.
  apply div_eucl_exact. lia.
Qed.

Lemma new_location_exact n : new_location n 0 = loc_Exact.
Proof. unfold new_location. destruct (Z.even n); reflexivity. Qed.

(** A finite non-zero number divided by itself is [1.0], whatever its
    encoding. *)
Lemma div_self s m e :
  F64.div (S754_finite s m e) (S754_finite s m e) = F64.one.
Proof.
  unfold F64.div, SFdiv, SFdiv_core_binary.
  rewrite !Z.sub_diag.
  change (fexp F64.prec F64.emax 0) with (-53)%Z.
  change (IntDef.Z.min (-53) 0) with (-53)%Z.
  change (0 - -53)%Z with 53%Z. cbv iota beta.
  rewrite div_eucl_shiftl_self, new_location_exact.
  destruct s; reflexivity.
Qed.

(** A binary64 mantissa has 53 bits, or fewer at the least exponent. *)
Lemma bounded_inv m e :
  bounded F64.prec F64.emax m e = true ->
  ((e = -1074 /\ Z.pos (digits2_pos m) <= 53) \/
   (-1074 < e /\ Z.pos (digits2_pos m) = 53))%Z /\ (e <= 971)%Z.
Proof.
  unfold bounded, canonical_mantissa, fexp, emin, F64.prec, F64.emax.
  intros H. apply andb_prop in H. destruct H as [H1 H2].
  apply Z.eqb_eq in H1. apply Z.leb_le in H2. lia.
Qed.

Lemma round_exact sx m e :
  bounded F64.prec F64.emax m e = true ->
  binary_round_aux F64.prec F64.emax sx (Z.pos m) e loc_Exact = S754_finite sx m e.
Proof.
  intros Hb. unfold bounded in Hb. apply andb_prop in Hb. destruct Hb as [Hc He].
  unfold canonical_mantissa in Hc. apply Z.eqb_eq in Hc.
  unfold binary_round_aux, shr_fexp.
  change (Zdigits2 (Z.pos m)) with (Z.pos (digits2_pos m)).
  rewrite Hc, Z.sub_diag.
  cbn [shr shr_record_of_loc shr_m loc_of_shr_record shr_r shr_s round_nearest_even].
  change (Zdigits2 (Z.pos m)) with (Z.pos (digits2_pos m)).
  rewrite Hc, Z.sub_diag. cbn [shr shr_record_of_loc shr_m].
  now rewrite He.
Qed.

Lemma round_exact_even sx m e :
  bounded F64.prec F64.emax m e = true ->
  Z.pos (digits2_pos m) = 53%Z -> (-1074 < e)%Z ->
  binary_round_aux F64.prec F64.emax sx (Z.pos m~0) (e - 1) loc_Exact = S754_finite sx m e.
Proof.
  intros Hb Hd Hmin. pose proof Hb as Hb'.
  unfold bounded in Hb. apply andb_prop in Hb. destruct Hb as [Hc He].
  unfold canonical_mantissa in Hc. apply Z.eqb_eq in Hc.
  unfold binary_round_aux, shr_fexp.
  change (Zdigits2 (Z.pos m~0)) with (Z.pos (Pos.succ (digits2_pos m))).
  rewrite Pos2Z.inj_succ, Hd.
  replace (fexp F64.prec F64.emax (Z.succ 53 + (e - 1)) - (e - 1))%Z with 1%Z
    by (unfold fexp, emin, F64.prec, F64.emax; lia).
  cbn [shr shr_record_of_loc shr_m loc_of_shr_record shr_r shr_s round_nearest_even
       iter_pos shr_1 orb].
  replace (e - 1 + 1)%Z with e by lia.
  change (Zdigits2 (Z.pos m)) with (Z.pos (digits2_pos m)).
  rewrite Hc, Z.sub_diag. cbn [shr shr_record_of_loc shr_m].
  now rewrite He.
Qed.

Lemma div_one_finite s m e :
  bounded F64.prec F64.emax m e = true ->
  F64.div (S754_finite s m e) F64.one = S754_finite s m e.
Proof.
  intros Hb. destruct (bounded_inv m e Hb) as [Hcase He].
  unfold F64.div, SFdiv, SFdiv_core_binary, F64.one.
  change (Zdigits2 (Z.pos 4503599627370496)) with 53%Z.
  change (Zdigits2 (Z.pos m)) with (Z.pos (digits2_pos m)).
  set (e' := IntDef.Z.min _ _).
  change 4503599627370496%Z with (2 ^ 52)%Z.
  rewrite xorb_false_r.
  destruct Hcase as [[-> Hd]|[Hmin Hd]].
  - assert (E : e' = (-1074)%Z).
    { subst e'. unfold fexp, emin, F64.prec, F64.emax.
      change IntDef.Z.min with Z.min. lia. }
    rewrite E. change (-1074 - -52 - -1074)%Z with 52%Z. cbv iota.
    rewrite div_eucl_shiftl_pow2 by reflexivity.
    change (2 ^ (52 - 52))%Z with 1%Z. rewrite Z.mul_1_r, new_location_exact.
    now apply round_exact.
  - assert (E : e' = (e - 1)%Z).
    { subst e'. unfold fexp, emin, F64.prec, F64.emax.
      change IntDef.Z.min with Z.min. lia. }
    rewrite E. replace (e - -52 - (e - 1))%Z with 53%Z by lia. cbv iota.
    rewrite div_eucl_shiftl_pow2 by (unfold Pos.le; discriminate).
    change (2 ^ (53 - 52))%Z with 2%Z.
    replace (Z.pos m * 2)%Z with (Z.pos m~0) by lia.
    rewrite new_location_exact.
    now apply round_exact_even.
Qed.

(** Dividing a binary64 value by [1.0] returns it. *)
Lemma div_one x : F64.valid x = true -> F64.div x F64.one = x.
Proof.
  destruct x as [[]|[]| |s m e]; try reflexivity.
  apply div_one_finite.
Qed.

(** ** Column statistics in binary64 *)

Lemma fold_add_zero_or_nan xs acc :
  F64.zero_or_nan acc = true ->
  Forall (fun x => F64.zero_or_nan x = true) xs ->
  F64.zero_or_nan (fold_left F64.add xs acc) = true.
Proof.
  intros Hacc H. revert acc Hacc.
  induction H as [|x xs Hx _ IH]; intros acc Hacc; simpl; auto.
  apply IH. now apply add_keeps_zero_or_nan.
Qed.

Lemma add_lanes_zero_or_nan r a :
  Forall (fun x => F64.zero_or_nan x = true) r ->
  Forall (fun x => F64.zero_or_nan x = true) a ->
  Forall (fun x => F64.zero_or_nan x = true) (Series.add_lanes r a).
Proof.
  intros Hr. revert a. unfold Series.add_lanes.
  induction Hr as [|x r Hx _ IH]; intros a Ha; [constructor|].
  destruct Ha as [|y a Hy Ha]; cbn [combine map]; constructor.
  - now apply add_keeps_zero_or_nan.
  - now apply IH.
Qed.

Lemma Forall_firstn {A : Type} (P : A -> Prop) n l : Forall P l -> Forall P (firstn n l).
Proof.
  intros H. revert n. induction H as [|x l Hx _ IH]; intros [|n]; simpl; auto.
Qed.

Lemma Forall_skipn {A : Type} (P : A -> Prop) n l : Forall P l -> Forall P (skipn n l).
Proof.
  intros H. revert n. induction H as [|x l Hx Hl IH]; intros [|n]; simpl; auto.
Qed.

Lemma add_blocks_zero_or_nan blocks r a :
  Forall (fun x => F64.zero_or_nan x = true) r ->
  Forall (fun x => F64.zero_or_nan x = true) a ->
  Forall (fun x => F64.zero_or_nan x = true) (fst (Series.add_blocks blocks r a)) /\
  Forall (fun x => F64.zero_or_nan x = true) (snd (Series.add_blocks blocks r a)).
Proof.
  revert r a. induction blocks as [|b IH]; intros r a Hr Ha; cbn [Series.add_blocks].
  - now split.
  - apply IH.
    + apply add_lanes_zero_or_nan; [exact Hr|]. now apply Forall_firstn.
    + now apply Forall_skipn.
Qed.

Lemma combine_lanes_zero_or_nan r :
  Forall (fun x => F64.zero_or_nan x = true) r ->
  F64.zero_or_nan (Series.combine_lanes r) = true.
Proof.
  intros H. unfold Series.combine_lanes.
  do 8 (destruct H as [|? r ? H]; [reflexivity|]).
  destruct H; [|reflexivity].
  repeat apply add_keeps_zero_or_nan; assumption.
Qed.

Lemma unrolled_sum_zero_or_nan a :
  Forall (fun x => F64.zero_or_nan x = true) a ->
  F64.zero_or_nan (Series.unrolled_sum a) = true.
Proof.
  intros H. unfold Series.unrolled_sum.
  destruct (add_blocks_zero_or_nan (length a / 8 - 1) (firstn 8 a) (skipn 8 a)) as [Hr Hrest];
    [now apply Forall_firstn | now apply Forall_skipn |].
  destruct (Series.add_blocks _ _ _) as [r rest]. cbn [fst snd] in *.
  apply fold_add_zero_or_nan; [|exact Hrest].
  now apply combine_lanes_zero_or_nan.
Qed.

Lemma pairwise_sum_zero_or_nan fuel a :
  Forall (fun x => F64.zero_or_nan x = true) a ->
  F64.zero_or_nan (Series.pairwise_sum fuel a) = true.
Proof.
  revert a. induction fuel as [|fuel IH]; intros a H; cbn [Series.pairwise_sum];
    destruct (length a <? 8)%nat;
    try (apply fold_add_zero_or_nan; [reflexivity | exact H]);
    destruct (length a <=? 128)%nat;
    try (now apply unrolled_sum_zero_or_nan).
  apply add_keeps_zero_or_nan; apply IH;
    [now apply Forall_firstn | now apply Forall_skipn].
Qed.

Lemma sum_zero_or_nan xs :
  Forall (fun x => F64.zero_or_nan x = true) xs -> F64.zero_or_nan (Series.sum xs) = true.
Proof.
  intros H. unfold Series.sum. apply add_keeps_zero_or_nan; [reflexivity|].
  now apply pairwise_sum_zero_or_nan.
Qed.

(** The levels given to [pairwise_sum] are enough: with [length a] or more
    of them the bottom of the recursion is reached on every branch, and the
    result no longer depends on their number. *)
Lemma pairwise_sum_fuel fuel fuel' a :
  (length a <= fuel)%nat -> (length a <= fuel')%nat ->
  Series.pairwise_sum fuel a = Series.pairwise_sum fuel' a.
Proof.
  revert fuel' a. induction fuel as [|fuel IH]; intros fuel' a H H'.
  - assert (length a = 0%nat) as Hn by lia.
    destruct fuel'; cbn [Series.pairwise_sum]; rewrite Hn; reflexivity.
  - destruct fuel' as [|fuel'].
    + assert (length a = 0%nat) as Hn by lia.
      cbn [Series.pairwise_sum]. rewrite Hn. reflexivity.
    + cbn [Series.pairwise_sum].
      destruct (Nat.ltb_spec (length a) 8) as [|H8]; [reflexivity|].
      destruct (Nat.leb_spec (length a) 128) as [|H128]; [reflexivity|].
      assert (Hhalf : (0 < length a / 2 - (length a / 2) mod 8 < length a)%nat).
      { pose proof (Nat.div_mod_eq (length a) 2) as E2.
        pose proof (Nat.mod_upper_bound (length a) 2 ltac:(lia)).
        pose proof (Nat.mod_upper_bound (length a / 2) 8 ltac:(lia)). lia. }
      f_equal; apply IH;
        rewrite ?length_firstn, ?length_skipn; lia.
Qed.

(** With that many levels the model satisfies the recursion of the source:
    an array of more than 128 values is the sum of the sums of its two
    parts. *)
Lemma pairwise_sum_unfold a :
  (128 < length a)%nat ->
  Series.pairwise_sum (length a) a =
  F64.add
    (Series.pairwise_sum
       (length (firstn (length a / 2 - (length a / 2) mod 8) a))
       (firstn (length a / 2 - (length a / 2) mod 8) a))
    (Series.pairwise_sum
       (length (skipn (length a / 2 - (length a / 2) mod 8) a))
       (skipn (length a / 2 - (length a / 2) mod 8) a)).
Proof.
  intros H. destruct (length a) as [|n] eqn:E; [lia|].
  cbn [Series.pairwise_sum]. rewrite E.
  destruct (Nat.ltb_spec (S n) 8); [lia|].
  destruct (Nat.leb_spec (S n) 128); [lia|].
  assert (Hhalf : (0 < S n / 2 - (S n / 2) mod 8 < S n)%nat).
  { pose proof (Nat.div_mod_eq (S n) 2).
    pose proof (Nat.mod_upper_bound (S n) 2 ltac:(lia)).
    pose proof (Nat.mod_upper_bound (S n / 2) 8 ltac:(lia)). lia. }
  f_equal; apply pairwise_sum_fuel;
    rewrite ?length_firstn, ?length_skipn; lia.
Qed.

(** One value: the divisor [count - ddof] is replaced by NaN. *)
Lemma std_single x : Series.std [x] = F64.nan.
Proof. unfold Series.std, Series.var. simpl. rewrite div_by_nan. reflexivity. Qed.

Lemma var_length_le_1 xs : (length xs <= 1)%nat -> Series.var xs = F64.nan.
Proof.
  intros H. unfold Series.var.
  replace (length xs <=? Series.ddof)%nat with true
    by (symmetry; apply Nat.leb_le; exact H).
  apply div_by_nan.
Qed.

Lemma standardize_single x : Series.standardize [x] = [F64.nan].
Proof.
  unfold Series.standardize. rewrite std_single. simpl. now rewrite div_by_nan.
Qed.

(** A column all of whose entries equal its computed mean has a standard
    deviation that is zero or NaN. *)
Lemma std_of_constant xs :
  Forall (fun v => F64.eqb (Series.mean xs) v = true) xs ->
  F64.zero_or_nan (Series.std xs) = true.
Proof.
  intros H. unfold Series.std. apply sqrt_keeps_zero_or_nan.
  destruct (Nat.leb_spec (length xs) 1) as [Hn|Hn].
  - now rewrite var_length_le_1.
  - unfold Series.var.
    replace (length xs <=? Series.ddof)%nat with false
      by (symmetry; apply Nat.leb_gt; exact Hn).
    apply div_keeps_zero_or_nan, sum_zero_or_nan.
    apply Forall_map. revert H. apply Forall_impl. intros v Hv.
    apply square_keeps_zero_or_nan, sub_equal_zero_or_nan. exact Hv.
Qed.

Lemma standardize_constant xs :
  Forall (fun v => F64.eqb (Series.mean xs) v = true) xs ->
  Series.standardize xs = map (fun _ => F64.nan) xs.
Proof.
  intros H. unfold Series.standardize.
  apply map_ext_in. intros v Hv.
  apply div_zero_or_nan.
  - apply sub_equal_zero_or_nan, eqb_sym.
    rewrite Forall_forall in H. now apply H.
  - now apply std_of_constant.
Qed.

(** ** Normalisation of a table *)

Lemma nth_error_stats_from rs j0 cols j name d :
  nth_error cols j = Some (name, d) ->
  nth_error (stats_from rs j0 cols) j =
  Some (if is_number d
        then Some (Series.mean (column (j0 + j) rs), Series.std (column (j0 + j) rs))
        else None).
Proof.
  revert j0 j. induction cols as [|[n0 d0] cols IH]; intros j0 [|j] H; simpl in *;
    try discriminate.
  - injection H as -> ->. now rewrite Nat.add_0_r.
  - rewrite (IH (S j0) j H). now rewrite Nat.add_succ_r.
Qed.

Lemma nth_error_standardize_row sts r j st c :
  nth_error sts j = Some st ->
  nth_error r j = Some c ->
  nth_error (standardize_row sts r) j = Some (standardize_cell st c).
Proof.
  revert r j. induction sts as [|s sts IH]; intros [|c0 r] [|j] Hs Hr; simpl in *;
    try discriminate.
  - now injection Hs as ->; injection Hr as ->.
  - now apply IH.
Qed.

Lemma length_standardize_row sts r : length (standardize_row sts r) = length r.
Proof.
  revert r. induction sts as [|s sts IH]; intros [|c r]; simpl; auto.
Qed.

(** The entry of a numeric column after normalisation. *)
Lemma normalize_numeric_entry df r j name c :
  In r (rows df) ->
  nth_error (columns df) j = Some (name, float64) ->
  nth_error r j = Some c ->
  nth_error (standardize_row (column_stats df) r) j =
  Some (CNum (F64.div (F64.sub (to_float c) (Series.mean (column j (rows df))))
                      (Series.std (column j (rows df))))).
Proof.
  intros _ Hcol Hc. unfold column_stats.
  now rewrite (nth_error_standardize_row _ _ _ _ _ (nth_error_stats_from _ 0 _ _ _ _ Hcol) Hc).
Qed.

Lemma column_constant j rs x :
  Forall (fun r => nth_error r j = Some (CNum x)) rs ->
  column j rs = map (fun _ => x) rs.
Proof.
  intros H. unfold column. apply map_ext_in. intros r Hr.
  rewrite Forall_forall in H. specialize (H r Hr).
  now rewrite (nth_error_nth _ _ _ H).
Qed.

Lemma clean_data_Some self df :
  processed_data self = Some df ->
  processed_data (clean_data self) = Some (normalize (dropna df)).
Proof. intros H. unfold clean_data. now rewrite H. Qed.

(** C10. Normalisation divides by the sample standard deviation
    ([ddof = 1]).  When exactly one row survives the row filter, the standard
    deviation of every numeric column is NaN, and the cleaned table holds NaN
    in every numeric entry of that row, whatever the values were. *)
Theorem single_row_normalizes_to_nan :
  forall (self : DataAnalyzer) (df : DataFrame) (r : list cell)
         (j : nat) (name : string) (c : cell),
    processed_data self = Some df ->
    rows (dropna df) = [r] ->
    nth_error (columns df) j = Some (name, float64) ->
    nth_error r j = Some c ->
    Series.std (column j (rows (dropna df))) = F64.nan /\
    exists r',
      option_map rows (processed_data (clean_data self)) = Some [r'] /\
      nth_error r' j = Some (CNum F64.nan).
Proof.
  intros self df r j name c Hdf Hrows Hcol Hc.
  assert (Hstd : Series.std (column j (rows (dropna df))) = F64.nan).
  { rewrite Hrows. apply std_single. }
  split; [exact Hstd|].
  rewrite (clean_data_Some _ _ Hdf). cbn [option_map normalize rows].
  rewrite Hrows. cbn [map]. eexists. split; [reflexivity|].
  rewrite (normalize_numeric_entry (dropna df) r j name c);
    [| rewrite Hrows; now left | exact Hcol | exact Hc].
  now rewrite Hstd, div_by_nan.
Qed.

(** C9, as amended.  A numeric column that is constant over the two or more
    rows that survive the row filter, and whose computed mean equals that
    constant, is turned into NaN in every row: the deviations are zeros (or
    NaN for an infinite constant), the standard deviation is zero or NaN, and
    their quotient is NaN.  Nothing is clamped or skipped. *)
Theorem constant_column_normalizes_to_nan :
  forall (self : DataAnalyzer) (df : DataFrame) (j : nat) (name : string) (x : F64.t),
    processed_data self = Some df ->
    nth_error (columns df) j = Some (name, float64) ->
    (2 <= length (rows (dropna df)))%nat ->
    Forall (fun r => nth_error r j = Some (CNum x)) (rows (dropna df)) ->
    F64.eqb (Series.mean (column j (rows (dropna df)))) x = true ->
    exists df',
      processed_data (clean_data self) = Some df' /\
      length (rows df') = length (rows (dropna df)) /\
      Forall (fun r' => nth_error r' j = Some (CNum F64.nan)) (rows df').
Proof.
  intros self df j name x Hdf Hcol _ Hconst Hmean.
  rewrite (clean_data_Some _ _ Hdf). eexists. split; [reflexivity|].
  cbn [rows normalize]. split; [apply length_map|].
  apply Forall_map. rewrite Forall_forall in *. intros r Hr.
  assert (Hcolumn : column j (rows (dropna df)) = map (fun _ => x) (rows (dropna df))).
  { apply column_constant. now apply Forall_forall. }
  erewrite normalize_numeric_entry;
    [| exact Hr | exact Hcol | apply Hconst; exact Hr].
  do 2 f_equal. cbn [to_float].
  assert (Hall : Forall (fun v => F64.eqb (Series.mean (column j (rows (dropna df)))) v = true)
                        (column j (rows (dropna df)))).
  { apply Forall_forall. intros v Hv. rewrite Hcolumn in Hv.
    apply in_map_iff in Hv. destruct Hv as (r0 & <- & _). exact Hmean. }
  apply div_zero_or_nan.
  - now apply sub_equal_zero_or_nan, eqb_sym.
  - now apply std_of_constant.
Qed.

Lemma constant_column_normalizes_to_nan_witness :
  exists df',
    processed_data (clean_data (Sample.analyzer "twos.csv" Sample.twos)) = Some df' /\
    length (rows df') = length (rows (dropna Sample.twos)) /\
    Forall (fun r' => nth_error r' 0 = Some (CNum F64.nan)) (rows df').
Proof.
  apply (constant_column_normalizes_to_nan
           (Sample.analyzer "twos.csv" Sample.twos) Sample.twos 0 "x" (F64.of_Z 2)).
  - reflexivity.
  - reflexivity.
  - vm_compute. lia.
  - vm_compute. repeat constructor.
  - vm_compute. reflexivity.
Defined.

(** The constant column 0.1, 0.1, 0.1: the binary64 sum is
    0.30000000000000004 and the mean 0.10000000000000002, one unit in the last
    place above the entries, so the computed standard deviation is about
    1.7e-17 rather than zero and every entry becomes about -0.8165
    ([-7354347395230783 * 2^-53]), not NaN. *)
Lemma constant_tenths_not_nan :
  Forall (fun r => nth_error r 0 = Some (CNum Sample.tenth)) (rows (dropna Sample.tenths)) /\
  length (rows (dropna Sample.tenths)) = 3%nat /\
  Sample.tenth = S754_finite false 7205759403792794 (-56) /\
  Series.mean (column 0 (rows (dropna Sample.tenths)))
  = S754_finite false 7205759403792795 (-56) /\
  Series.std (column 0 (rows (dropna Sample.tenths)))
  = S754_finite false 5515760546423086 (-108) /\
  processed_data (clean_data (Sample.analyzer "tenths.csv" Sample.tenths))
  = Some {| columns := [("x"%string, float64)];
            rows := [[CNum (S754_finite true 7354347395230783 (-53))];
                     [CNum (S754_finite true 7354347395230783 (-53))];
                     [CNum (S754_finite true 7354347395230783 (-53))]] |} /\
  isna (CNum (S754_finite true 7354347395230783 (-53))) = false.
Proof. vm_compute. repeat split; repeat constructor. Qed.

(** From eight rows on the order of the additions is numpy's.  Eight rows of
    0.1 are added as [((a+a)+(a+a))+((a+a)+(a+a))], every step is exact, the
    mean is 0.1 and the column becomes NaN, whereas adding them one after the
    other would give 0.7999999999999999.  Ten rows of 1.9 give the mean
    1.8999999999999997 and become about 0.9487, whereas adding them one
    after the other would give the mean 1.9. *)
Example constant_columns_of_eight_and_ten :
  Series.mean (repeat Sample.tenth 8) = Sample.tenth /\
  Series.standardize (repeat Sample.tenth 8) = repeat F64.nan 8 /\
  F64.div (fold_left F64.add (repeat Sample.tenth 8) F64.zero) (F64.of_nat 8)
  = S754_finite false 7205759403792793 (-56) /\
  Series.mean (repeat (F64.of_ratio 19 10) 10) = S754_finite false 8556839292003941 (-52) /\
  F64.of_ratio 19 10 = S754_finite false 8556839292003942 (-52) /\
  Series.standardize (repeat (F64.of_ratio 19 10) 10)
  = repeat (S754_finite false 8544979495185814 (-53)) 10 /\
  F64.div (fold_left F64.add (repeat (F64.of_ratio 19 10) 10) F64.zero) (F64.of_nat 10)
  = F64.of_ratio 19 10.
Proof. vm_compute. repeat split. Qed.

(** A longer column: the integers 1 to 1000 are added over the two halves
    496 + 504, each again over blocks of at most 128, and the sum is exact. *)
Example sum_of_thousand :
  Series.sum (map (fun i => F64.of_nat i) (seq 1 1000)) = F64.of_Z 500500.
Proof. vm_compute. reflexivity. Qed.

Lemma single_row_normalizes_to_nan_witness :
  Series.std (column 0 (rows (dropna Sample.one_row))) = F64.nan /\
  exists r',
    option_map rows (processed_data (clean_data (Sample.analyzer "one.csv" Sample.one_row)))
    = Some [r'] /\
    nth_error r' 0 = Some (CNum F64.nan).
Proof.
  apply (single_row_normalizes_to_nan
           (Sample.analyzer "one.csv" Sample.one_row) Sample.one_row
           [Sample.num 7; Sample.num 1] 0 "x" (Sample.num 7));
    reflexivity.
Defined.

(** ** The row filter *)






Lemma filter_all {A : Type} (p : A -> bool) l :
  Forall (fun x => p x = true) l -> filter p l = l.
Proof.
  induction 1 as [|x l Hx _ IH]; simpl; [reflexivity|]. now rewrite Hx, IH.
Qed.



(** The middle row of [Sample.with_gap] has a gap and is the one dropped. *)
Example dropna_with_gap : dropna Sample.with_gap = Sample.complete.
Proof. reflexivity. Qed.

(** ** The loader *)

Lemma existsb_eqb_In k seen : existsb (String.eqb k) seen = true <-> In k seen.
Proof.
  rewrite existsb_exists. split.
  - intros (x & Hx & E). apply String.eqb_eq in E. now subst.
  - intros H. exists k. split; [exact H|apply String.eqb_refl].
Qed.

Lemma in_unique k seen ks :
  In k (unique seen ks) <-> In k ks /\ ~ In k seen.
Proof.
  revert seen. induction ks as [|k0 ks IH]; intros seen; simpl; [tauto|].
  destruct (existsb (String.eqb k0) seen) eqn:E.
  - apply existsb_eqb_In in E. rewrite IH. split.
    + tauto.
    + intros [[->|H] Hn]; [contradiction|tauto].
  - assert (Hk0 : ~ In k0 seen).
    { intros H. apply existsb_eqb_In in H. congruence. }
    simpl. rewrite IH. simpl. split.
    + intros [->|[H Hn]]; [tauto|]. split; [tauto|]. intros H'. apply Hn. now right.
    + intros [[->|H] Hn]; [now left|].
      destruct (string_dec k0 k) as [->|Hne]; [now left|]. right. split; [exact H|].
      intros [E'|H']; [contradiction|contradiction].
Qed.

Lemma NoDup_unique seen ks : NoDup (unique seen ks).
Proof.
  revert seen. induction ks as [|k0 ks IH]; intros seen; simpl; [constructor|].
  destruct (existsb (String.eqb k0) seen); [apply IH|].
  constructor; [|apply IH].
  rewrite in_unique. intros [_ H]. apply H. now left.
Qed.

Lemma map_fst_combine_map {A B : Type} (f : A -> B) (l : list A) :
  map fst (combine l (map f l)) = l.
Proof. induction l as [|a l IH]; simpl; [reflexivity|now rewrite IH]. Qed.

Lemma DataFrame_records_labels recs :
  map fst (columns (DataFrame_records recs)) = union_keys recs.
Proof. unfold DataFrame_records. cbn [columns]. apply map_fst_combine_map. Qed.

Lemma in_union_keys k recs :
  In k (union_keys recs) <-> exists rec, In rec recs /\ In k (keys rec).
Proof.
  unfold union_keys. rewrite in_unique, in_concat. split.
  - intros [(ks & Hks & Hk) _]. apply in_map_iff in Hks.
    destruct Hks as (rec & <- & Hrec). now exists rec.
  - intros (rec & Hrec & Hk). split; [|intros []].
    exists (keys rec). split; [now apply in_map|exact Hk].
Qed.

Section LoaderFacts.
Variable read_csv : string -> result DataFrame.
Variable json_load : string -> result json.
Variable DataFrame_other : json -> result DataFrame.

(** C7. [load_data] dispatches on the suffix of the source identifier.
    With [.csv] the analyzer comes back holding the table the delimited-text
    parser returned (and the parser's error is the caller's).  With [.json],
    a document that is a sequence of records is stored as the table whose
    column labels are, without repetition, exactly the keys that occur in
    some record.  With any other suffix the analyzer is returned as it was,
    so an absent table stays absent.  The source identifier is never
    changed. *)
Theorem load_data_dispatches_on_suffix :
  forall self : DataAnalyzer,
    let src := data_source self in
    let loaded := load_data read_csv json_load DataFrame_other self in
    (endswith src ".csv" = true ->
     (forall df, read_csv src = Ok df ->
        exists self', loaded = Ok self' /\
                      processed_data self' = Some df /\
                      data_source self' = src) /\
     (forall e, read_csv src = Raise e -> loaded = Raise e)) /\
    (endswith src ".csv" = false -> endswith src ".json" = true ->
     forall items recs,
       json_load src = Ok (JArr items) ->
       as_records items = Some recs ->
       exists self' df,
         loaded = Ok self' /\
         processed_data self' = Some df /\
         data_source self' = src /\
         df = DataFrame_records recs /\
         length (rows df) = length recs /\
         NoDup (map fst (columns df)) /\
         (forall k, In k (map fst (columns df)) <->
                    exists rec, In rec recs /\ In k (keys rec))) /\
    (endswith src ".csv" = false -> endswith src ".json" = false ->
     loaded = Ok self /\
     (processed_data self = None ->
      forall self', loaded = Ok self' -> processed_data self' = None)).
Proof.
  intros self src loaded. subst loaded. unfold load_data. fold src.
  split; [|split].
  - intros Hcsv. rewrite Hcsv. split.
    + intros df Hdf. rewrite Hdf. eexists. split; [reflexivity|]. now split.
    + intros e He. now rewrite He.
  - intros Hcsv Hjson items recs Hload Hrecs. rewrite Hcsv, Hjson, Hload.
    cbn [bind pd_DataFrame]. rewrite Hrecs.
    eexists. exists (DataFrame_records recs).
    split; [reflexivity|]. split; [reflexivity|]. split; [reflexivity|].
    split; [reflexivity|].
    split; [unfold DataFrame_records; cbn [rows]; apply length_map|].
    rewrite DataFrame_records_labels. split.
    + apply NoDup_unique.
    + intros k. apply in_union_keys.
  - intros Hcsv Hjson. rewrite Hcsv, Hjson. split; [reflexivity|].
    intros Hnone self' E. injection E as <-. exact Hnone.
Qed.
End LoaderFacts.

Lemma load_data_dispatches_on_suffix_witness :
  (forall df, Sample.read_csv "data.csv" = Ok df ->
     exists self',
       load_data Sample.read_csv Sample.json_load Sample.DataFrame_other (init "data.csv")
       = Ok self' /\
       processed_data self' = Some df /\
       data_source self' = "data.csv"%string) /\
  (exists self' df,
     load_data Sample.read_csv Sample.json_load Sample.DataFrame_other (init "data.json")
     = Ok self' /\
     processed_data self' = Some df /\
     data_source self' = "data.json"%string /\
     df = DataFrame_records Sample.records /\
     length (rows df) = length Sample.records /\
     NoDup (map fst (columns df)) /\
     (forall k, In k (map fst (columns df)) <->
                exists rec, In rec Sample.records /\ In k (keys rec))) /\
  (load_data Sample.read_csv Sample.json_load Sample.DataFrame_other (init "data.xlsx")
   = Ok (init "data.xlsx")).
Proof.
  split; [|split].
  - apply (load_data_dispatches_on_suffix
             Sample.read_csv Sample.json_load Sample.DataFrame_other (init "data.csv")).
    reflexivity.
  - apply (load_data_dispatches_on_suffix
             Sample.read_csv Sample.json_load Sample.DataFrame_other (init "data.json"))
      with (items := map JObj Sample.records); reflexivity.
  - apply (load_data_dispatches_on_suffix
             Sample.read_csv Sample.json_load Sample.DataFrame_other (init "data.xlsx"));
      reflexivity.
Defined.

(** The two records with keys [id, name] and [id, score] give the columns
    [id, name, score]; the gaps read as missing. *)
Example DataFrame_records_sample :
  map fst (columns (DataFrame_records Sample.records)) = ["id"; "name"; "score"]%string /\
  map (map isna) (rows (DataFrame_records Sample.records))
  = [[false; false; true]; [false; true; false]].
Proof. split; reflexivity. Qed.

(** ** The splitter *)

Lemma length_take {A : Type} (xs : list A) positions :
  Forall (fun i => (i < length xs)%nat) positions ->
  length (take xs positions) = length positions.
Proof.
  unfold take. induction 1 as [|i ps Hi _ IH]; simpl; [reflexivity|].
  destruct (nth_error xs i) eqn:E.
  - simpl. now rewrite IH.
  - apply nth_error_None in E. lia.
Qed.

(** The evaluation share of [n] rows: the ceiling of [n / 5]. *)
Lemma test_share_bounds (n : nat) :
  let n_test := Z.to_nat (Qceiling (0.2 * inject_Z (Z.of_nat n))) in
  (n <= 5 * n_test < n + 5)%nat.
Proof.
  cbv zeta. unfold Qceiling, Qfloor, Qmult, Qopp, inject_Z. cbn [Qnum Qden].
  pose proof (Z.div_mod (- (2 * Z.of_nat n)) 10 ltac:(lia)) as E.
  pose proof (Z.mod_pos_bound (- (2 * Z.of_nat n)) 10 ltac:(lia)) as B.
  change (Z.pos (10 * 1)) with 10%Z.
  lia.
Qed.

Lemma validate_shuffle_split_ok (n : nat) :
  (2 <= n)%nat ->
  exists n_train n_test,
    validate_shuffle_split n 0.2 = Ok (n_train, n_test) /\
    (n_train + n_test = n)%nat /\ (1 <= n_train)%nat /\
    (n <= 5 * n_test < n + 5)%nat.
Proof.
  intros Hn. pose proof (test_share_bounds n) as B. cbv zeta in B.
  unfold validate_shuffle_split.
  change (Qle_bool 0.2 0 || Qle_bool 1 0.2) with false. cbv iota.
  set (n_test := Z.to_nat (Qceiling (0.2 * inject_Z (Z.of_nat n)))) in *.
  destruct (Nat.eqb_spec (n - n_test) 0) as [E|E]; [lia|].
  exists (n - n_test)%nat, n_test. repeat split; lia.
Qed.

Lemma validate_shuffle_split_small (n : nat) :
  (n < 2)%nat ->
  validate_shuffle_split n 0.2 =
  Raise {| class := ValueError; message := "the resulting train set will be empty" |}.
Proof.
  intros Hn. destruct n as [|[|n]]; [reflexivity|reflexivity|lia].
Qed.

(** For every row count below 5000 the ceiling of the binary64 product
    [0.2 * n] is the ceiling of the exact product. *)
Lemma binary64_test_share_agrees :
  forallb (fun n => match binary64_n_test n with
                    | Some z => Z.eqb z (Qceiling (0.2 * inject_Z (Z.of_nat n)))
                    | None => false
                    end)
          (seq 0 5000) = true.
Proof. vm_compute. reflexivity. Qed.

Lemma rotation_shuffles (g n : nat) :
  Permutation (fst (Sample.permutation g n)) (seq 0 n).
Proof.
  unfold Sample.permutation. cbn [fst].
  rewrite Permutation_app_comm, firstn_skipn. reflexivity.
Qed.

Section SplitterFacts.
Variable rng : Type.
Variable RandomState : Z -> rng.
Variable permutation : rng -> nat -> list nat * rng.

(** What numpy guarantees of [rng.permutation(n)]: a rearrangement of
    [range(n)]. *)
Hypothesis permutation_shuffles :
  forall g n, Permutation (fst (permutation g n)) (seq 0 n).

Lemma shuffle_split_seeded (n : nat) (seed : Z) (global : rng) :
  (2 <= n)%nat ->
  exists train test,
    shuffle_split RandomState permutation n 0.2 (Some seed) global
    = (Ok (train, test), global) /\
    train = skipn (length test) (fst (permutation (RandomState seed) n)) /\
    test = firstn (length test) (fst (permutation (RandomState seed) n)) /\
    (n <= 5 * length test < n + 5)%nat /\
    (1 <= length train)%nat /\
    Permutation (train ++ test) (seq 0 n).
Proof.
  intros Hn.
  destruct (validate_shuffle_split_ok n Hn) as (n_train & n_test & E & Hsum & Htr & Hte).
  unfold shuffle_split. rewrite E. cbn [check_random_state].
  pose proof (permutation_shuffles (RandomState seed) n) as P.
  destruct (permutation (RandomState seed) n) as [perm after]. cbn [fst] in *.
  assert (Hlen : length perm = n).
  { rewrite (Permutation_length P). apply length_seq. }
  assert (Htest : length (firstn n_test perm) = n_test).
  { rewrite length_firstn. lia. }
  assert (Htrain : firstn n_train (skipn n_test perm) = skipn n_test perm).
  { apply firstn_all2. rewrite length_skipn. lia. }
  exists (firstn n_train (skipn n_test perm)), (firstn n_test perm).
  rewrite Htest, Htrain. repeat split; try lia.
  - rewrite length_skipn. lia.
  - rewrite Permutation_app_comm, firstn_skipn. exact P.
Qed.

(** C1, as amended.  For every table with at least two rows and every
    seed, the split succeeds without touching the process-wide generator;
    the training and evaluation positions are disjoint and together are
    exactly the row positions of the table, so the sizes of the two subsets
    (of the features and of the targets alike) add up to the row count;
    the result does not depend on the state of the process-wide generator,
    so running it again gives the same partition; and on 100 rows the
    evaluation subset has exactly 20.  [split_data] is the instance with
    seed 42. *)
Theorem split_partitions_rows :
  forall (df : DataFrame) (seed : Z) (global : rng),
    let n := length (rows df) in
    (2 <= n)%nat ->
    exists s : Split,
      split_rows RandomState permutation seed df global = (Ok s, global) /\
      Permutation (train_index s ++ test_index s) (seq 0 n) /\
      (forall i, In i (train_index s) -> ~ In i (test_index s)) /\
      (length (train_index s) + length (test_index s) = n)%nat /\
      (length (rows (X_train s)) + length (rows (X_test s)) = n)%nat /\
      (length (y_train s) + length (y_test s) = n)%nat /\
      (forall global', fst (split_rows RandomState permutation seed df global') = Ok s) /\
      (n = 100%nat -> length (test_index s) = 20%nat /\
                      length (rows (X_test s)) = 20%nat).
Proof.
  intros df seed global n Hn.
  destruct (shuffle_split_seeded n seed global Hn)
    as (train & test & E & Htrain & Htest & Hshare & _ & P).
  assert (Hfeat : length (rows (iloc_features df)) = n).
  { unfold iloc_features. cbn [rows]. apply length_map. }
  assert (Htarget : length (iloc_target df) = n).
  { unfold iloc_target. apply length_map. }
  assert (Hrange : forall i, In i (train ++ test) -> (i < n)%nat).
  { intros i Hi. apply (Permutation_in _ P) in Hi. apply in_seq in Hi. lia. }
  assert (Hnodup : NoDup (train ++ test)).
  { apply (Permutation_NoDup (Permutation_sym P)), seq_NoDup. }
  assert (Hlen : (length train + length test = n)%nat).
  { rewrite <- length_app, (Permutation_length P). apply length_seq. }
  assert (Htk : forall (A : Type) (xs : list A) l,
             length xs = n -> (forall i, In i l -> In i (train ++ test)) ->
             length (take xs l) = length l).
  { intros A xs l Hxs Hl. apply length_take, Forall_forall.
    intros i Hi. rewrite Hxs. apply Hrange, Hl, Hi. }
  exists {| train_index := train;
            test_index := test;
            X_train := {| columns := columns (iloc_features df);
                          rows := take (rows (iloc_features df)) train |};
            X_test := {| columns := columns (iloc_features df);
                         rows := take (rows (iloc_features df)) test |};
            y_train := take (iloc_target df) train;
            y_test := take (iloc_target df) test |}.
  unfold split_rows, train_test_split. rewrite Hfeat.
  cbn [train_index test_index X_train X_test y_train y_test rows].
  split.
  - rewrite E. reflexivity.
  - repeat apply conj.
    + exact P.
    + intros i Hi Hi'. revert i Hi Hi'.
      apply NoDup_app_remove_l in Hnodup as Hnt.
      clear -Hnodup. induction train as [|a tr IH]; intros i Hi Hi'; [destruct Hi|].
      cbn [app] in Hnodup. apply NoDup_cons_iff in Hnodup. destruct Hnodup as [Ha Hnd].
      destruct Hi as [->|Hi].
      * apply Ha, in_or_app. now right.
      * now apply (IH Hnd i).
    + exact Hlen.
    + rewrite !(Htk _ _ _ Hfeat); [exact Hlen| |]; intros i Hi; apply in_or_app; auto.
    + rewrite !(Htk _ _ _ Htarget); [exact Hlen| |]; intros i Hi; apply in_or_app; auto.
    + intros global'.
      destruct (shuffle_split_seeded n seed global' Hn)
        as (train' & test' & E' & Htrain' & Htest' & Hshare' & _ & _).
      rewrite E'. cbn [bind fst snd].
      assert (length test' = length test) by lia.
      assert (test' = test) by congruence.
      assert (train' = train) by congruence.
      now subst.
    + intros Hn100. rewrite (Htk _ _ _ Hfeat); [lia|].
      intros i Hi; apply in_or_app; auto.
Qed.
End SplitterFacts.

Lemma split_partitions_rows_witness :
  exists s : Split,
    split_rows Sample.RandomState Sample.permutation 42 Sample.hundred_rows 7%nat
    = (Ok s, 7%nat) /\
    Permutation (train_index s ++ test_index s) (seq 0 100) /\
    (forall i, In i (train_index s) -> ~ In i (test_index s)) /\
    (length (train_index s) + length (test_index s) = 100)%nat /\
    (length (rows (X_train s)) + length (rows (X_test s)) = 100)%nat /\
    (length (y_train s) + length (y_test s) = 100)%nat /\
    (forall global',
        fst (split_rows Sample.RandomState Sample.permutation 42 Sample.hundred_rows global')
        = Ok s) /\
    (100%nat = 100%nat -> length (test_index s) = 20%nat /\
                          length (rows (X_test s)) = 20%nat).
Proof.
  apply (split_partitions_rows nat Sample.RandomState Sample.permutation
                               rotation_shuffles Sample.hundred_rows 42 7%nat).
  vm_compute. repeat constructor.
Defined.

(** A table with two columns and a single row: [n_test = ceil(0.2) = 1]
    leaves no training row and [train_test_split] raises. *)
Lemma split_single_row_raises :
  length (columns Sample.one_row) = 2%nat /\
  length (rows Sample.one_row) = 1%nat /\
  split_data Sample.RandomState Sample.permutation Sample.one_row 0%nat
  = (Raise {| class := ValueError;
              message := "the resulting train set will be empty" |}, 0%nat).
Proof. repeat split. Qed.

(** On the 100-row sample with the rotating generator the evaluation rows
    are positions 42 to 61. *)
Example split_hundred_rows :
  option_map test_index
    (match fst (split_data Sample.RandomState Sample.permutation Sample.hundred_rows 0%nat)
     with Ok s => Some s | Raise _ => None end)
  = Some (seq 42 20).
Proof. vm_compute. reflexivity. Qed.


(** ** Normalizing twice *)

Lemma map_sub_zero_div_one ys :
  Forall (fun v => F64.valid v = true) ys ->
  map (fun v => F64.div (F64.sub v F64.zero) F64.one) ys = ys.
Proof.
  induction 1 as [|v ys Hv _ IH]; [reflexivity|].
  cbn [map]. now rewrite sub_zero, (div_one v Hv), IH.
Qed.

Lemma standardize_fixed ys :
  Forall (fun v => F64.valid v = true) ys ->
  Series.mean ys = F64.zero ->
  Series.std ys = F64.one ->
  Series.standardize ys = ys.
Proof.
  intros Hv Hm Hs. unfold Series.standardize. rewrite Hm, Hs.
  now apply map_sub_zero_div_one.
Qed.




(** ** The correlation matrix *)

Lemma combine_diag {A : Type} (l : list A) : combine l l = map (fun a => (a, a)) l.
Proof. induction l as [|a l IH]; simpl; [reflexivity|]. now rewrite IH. Qed.

Lemma step_diagonal st v :
  Corr.diagonal_state st -> Corr.diagonal_state (Corr.step st (v, v)).
Proof.
  intros (Hm & Hs & Hc). unfold Corr.step.
  destruct (F64.isfinite v && F64.isfinite v); [|now repeat split].
  unfold Corr.diagonal_state. cbn [Corr.meanx Corr.meany Corr.ssqdmx Corr.ssqdmy Corr.covxy].
  now rewrite Hm, Hs, Hc.
Qed.

Lemma welford_diagonal xs : Corr.diagonal_state (Corr.welford xs xs).
Proof.
  unfold Corr.welford. rewrite combine_diag.
  assert (H : Corr.diagonal_state Corr.start) by (now repeat split).
  revert H. generalize Corr.start.
  induction xs as [|x xs IH]; intros st H; cbn [map fold_left]; [exact H|].
  apply IH. now apply step_diagonal.
Qed.

Lemma nobs_step st v : (Corr.nobs st <= Corr.nobs (Corr.step st v))%nat.
Proof.
  unfold Corr.step. destruct v as [vx vy].
  destruct (F64.isfinite vx && F64.isfinite vy); cbn [Corr.nobs]; lia.
Qed.

Lemma nobs_fold l st : (Corr.nobs st <= Corr.nobs (fold_left Corr.step l st))%nat.
Proof.
  revert st. induction l as [|v l IH]; intros st; cbn [fold_left]; [lia|].
  pose proof (nobs_step st v). specialize (IH (Corr.step st v)). lia.
Qed.

(** When no row took part nothing was accumulated. *)
Lemma fold_step_no_row l st :
  Corr.nobs (fold_left Corr.step l st) = Corr.nobs st -> fold_left Corr.step l st = st.
Proof.
  revert st. induction l as [|[vx vy] l IH]; intros st H; cbn [fold_left] in *;
    [reflexivity|].
  pose proof (nobs_fold l (Corr.step st (vx, vy))) as Hle.
  unfold Corr.step in *.
  destruct (F64.isfinite vx && F64.isfinite vy).
  - cbn [Corr.nobs] in Hle. lia.
  - now apply IH.
Qed.

Lemma welford_no_row xs ys :
  Corr.nobs (Corr.welford xs ys) = 0%nat -> Corr.welford xs ys = Corr.start.
Proof. intros H. unfold Corr.welford in *. now apply fold_step_no_row. Qed.

Lemma clip_bounds v :
  F64.is_nan (Corr.clip v) = true \/
  (F64.leb F64.minus_one (Corr.clip v) = true /\ F64.leb (Corr.clip v) F64.one = true).
Proof.
  unfold Corr.clip.
  destruct (F64.ltb F64.one v) eqn:Hhi; [right; split; reflexivity|].
  destruct (F64.ltb v F64.minus_one) eqn:Hlo; [right; split; reflexivity|].
  destruct (F64.is_nan v) eqn:Hnan; [now left|right].
  split.
  - now apply (ltb_false_leb v F64.minus_one).
  - now apply (ltb_false_leb F64.one v).
Qed.

Lemma coefficient_bounds xs ys :
  let v := Corr.coefficient true xs ys in
  F64.is_nan v = true \/ (F64.leb F64.minus_one v = true /\ F64.leb v F64.one = true).
Proof.
  unfold Corr.coefficient.
  destruct (Corr.nobs (Corr.welford xs ys) <? 1)%nat; [now left|].
  destruct (negb _); [apply clip_bounds | now left].
Qed.

Lemma coefficient_diagonal clips xs :
  let s := Corr.ssqdmx (Corr.welford xs xs) in
  F64.isfinite s = true -> F64.is_zero s = false ->
  F64.sqrt (F64.mul s s) = s ->
  Corr.coefficient clips xs xs = F64.one.
Proof.
  intros s Hfin Hnz Hsqrt. unfold Corr.coefficient.
  destruct (welford_diagonal xs) as (_ & Hs & Hc).
  destruct (Nat.ltb_spec (Corr.nobs (Corr.welford xs xs)) 1) as [Hn|Hn].
  - assert (E : Corr.welford xs xs = Corr.start) by (apply welford_no_row; lia).
    subst s. rewrite E in Hnz. discriminate.
  - rewrite Hs, Hc. fold s. rewrite Hsqrt.
    destruct s as [| | |sg m e]; try discriminate.
    replace (F64.eqb (S754_finite sg m e) F64.zero) with false
      by (now destruct sg).
    cbn [negb]. rewrite div_self. now destruct clips.
Qed.

Lemma result_at_sym clips cols i j :
  Corr.result_at clips cols i j = Corr.result_at clips cols j i.
Proof.
  unfold Corr.result_at.
  destruct (Nat.leb_spec j i), (Nat.leb_spec i j); try reflexivity; try lia.
  now replace j with i by lia.
Qed.

Lemma length_nancorr clips cols : length (Corr.nancorr clips cols) = length cols.
Proof. unfold Corr.nancorr. now rewrite length_map, length_seq. Qed.

Lemma rows_nancorr clips cols :
  Forall (fun r => length r = length cols) (Corr.nancorr clips cols).
Proof.
  unfold Corr.nancorr. apply Forall_map, Forall_forall. intros i _.
  now rewrite length_map, length_seq.
Qed.

Lemma nth_error_nancorr clips cols i j :
  (i < length cols)%nat -> (j < length cols)%nat ->
  exists r, nth_error (Corr.nancorr clips cols) i = Some r /\
            nth_error r j = Some (Corr.result_at clips cols i j).
Proof.
  intros Hi Hj. unfold Corr.nancorr. eexists. split.
  - rewrite nth_error_map. rewrite nth_error_seq.
    destruct (Nat.ltb_spec i (length cols)); [|lia]. reflexivity.
  - rewrite nth_error_map, nth_error_seq.
    destruct (Nat.ltb_spec j (length cols)); [|lia]. reflexivity.
Qed.

Lemma entry_nancorr clips labels cols i j :
  (i < length cols)%nat -> (j < length cols)%nat ->
  entry {| columns := labels; rows := map (map CNum) (Corr.nancorr clips cols) |} i j
  = Corr.result_at clips cols i j.
Proof.
  intros Hi Hj. destruct (nth_error_nancorr clips cols i j Hi Hj) as (r & Hr & Hv).
  unfold entry. cbn [rows].
  rewrite (nth_error_nth (map (map CNum) (Corr.nancorr clips cols)) i []
                         (x := map CNum r))
    by (now rewrite nth_error_map, Hr).
  rewrite (nth_error_nth (map CNum r) j (CObj JNull)
                         (x := CNum (Corr.result_at clips cols i j)))
    by (now rewrite nth_error_map, Hv).
  reflexivity.
Qed.

Lemma length_to_columns df : length (to_columns df) = length (columns df).
Proof. unfold to_columns. now rewrite length_map, length_seq. Qed.

Lemma nth_to_columns df i :
  (i < length (columns df))%nat -> nth i (to_columns df) [] = column i (rows df).
Proof.
  intros Hi. apply nth_error_nth. unfold to_columns.
  rewrite nth_error_map, nth_error_seq.
  destruct (Nat.ltb_spec i (length (columns df))); [reflexivity|lia].
Qed.

Section HeatmapFacts.
Variable clips : bool.
Variable corr_other : DataFrame -> result DataFrame.

(** C6, as amended.  For a table all of whose columns are numeric,
    [df.corr()] is a table with the same labels and as many rows as
    columns, every row as long; the entry for columns [i], [j] is bit for
    bit the entry for [j], [i]; the diagonal entry of column [i] is [1.0]
    whenever the accumulated sum of squared deviations [s] of that column is
    finite, not zero, and survives squaring ([sqrt (s * s) = s], that is,
    [s * s] neither overflows nor underflows); and, where pandas clips, every
    entry is NaN or lies between [-1.0] and [1.0].  This matrix is what
    [generate_visualizations] has drawn and saves. *)
Theorem correlation_matrix_binary64 :
  forall df : DataFrame,
    numeric_only df = true ->
    let K := length (columns df) in
    exists m,
      DataFrame_corr clips corr_other df = Ok m /\
      columns m = columns df /\
      length (rows m) = K /\
      Forall (fun r => length r = K) (rows m) /\
      (forall i j, (i < K)%nat -> (j < K)%nat -> entry m i j = entry m j i) /\
      (forall i, (i < K)%nat ->
         let x := column i (rows df) in
         let s := Corr.ssqdmx (Corr.welford x x) in
         F64.isfinite s = true -> F64.is_zero s = false ->
         F64.sqrt (F64.mul s s) = s ->
         entry m i i = F64.one) /\
      (clips = true ->
       forall i j, (i < K)%nat -> (j < K)%nat ->
         F64.is_nan (entry m i j) = true \/
         (F64.leb F64.minus_one (entry m i j) = true /\
          F64.leb (entry m i j) F64.one = true)) /\
      (forall (image rng : Type) (draw : DataFrame -> result image)
              (self : DataAnalyzer) (w : World image rng),
         processed_data self = Some df ->
         generate_visualizations (sns_heatmap clips corr_other draw) self w
         = match draw m with
           | Ok figure =>
               (Ok tt, {| files := write_file "correlation_matrix.png" figure (files w);
                          stdout := stdout w;
                          np_random := np_random w |})
           | Raise e => (Raise e, w)
           end).
Proof.
  intros df Hnum K.
  assert (Hcorr : DataFrame_corr clips corr_other df
                  = Ok {| columns := columns df;
                          rows := map (map CNum) (Corr.nancorr clips (to_columns df)) |}).
  { unfold DataFrame_corr. now rewrite Hnum. }
  eexists. split; [exact Hcorr|]. cbn [columns].
  assert (HK : length (to_columns df) = K) by apply length_to_columns.
  split; [reflexivity|]. split; [|split; [|split; [|split; [|split]]]].
  - cbn [rows]. now rewrite length_map, length_nancorr.
  - cbn [rows]. apply Forall_map.
    pose proof (rows_nancorr clips (to_columns df)) as H.
    revert H. apply Forall_impl. intros r Hr. now rewrite length_map, Hr.
  - intros i j Hi Hj. rewrite !entry_nancorr by lia. apply result_at_sym.
  - intros i Hi Hfin Hnz Hsqrt. rewrite entry_nancorr by lia.
    unfold Corr.result_at. rewrite Nat.leb_refl, (nth_to_columns df i Hi).
    now apply coefficient_diagonal.
  - intros -> i j Hi Hj. rewrite entry_nancorr by lia.
    unfold Corr.result_at. destruct (j <=? i)%nat; apply coefficient_bounds.
  - intros image rng draw self w Hdf.
    unfold generate_visualizations. rewrite Hdf.
    unfold bindM, lift, sns_heatmap. rewrite Hcorr. cbn [bind].
    now destruct (draw _).
Qed.
End HeatmapFacts.

(** The columns 1, 2, 3 and 1, 3, 2: both sums of squared deviations are 2.0
    and survive squaring; the coefficient of the two columns is one half. *)
Lemma correlation_matrix_binary64_witness :
  exists m,
    DataFrame_corr true Demo.corr_other Sample.pair = Ok m /\
    columns m = columns Sample.pair /\
    length (rows m) = 2%nat /\
    Forall (fun r => length r = 2%nat) (rows m) /\
    entry m 0 1 = entry m 1 0 /\
    entry m 0 0 = F64.one /\
    entry m 1 1 = F64.one /\
    (F64.is_nan (entry m 0 1) = true \/
     (F64.leb F64.minus_one (entry m 0 1) = true /\
      F64.leb (entry m 0 1) F64.one = true)) /\
    entry m 0 1 = F64.of_ratio 1 2.
Proof.
  destruct (correlation_matrix_binary64 true Demo.corr_other Sample.pair eq_refl)
    as (m & Hm & Hlabels & Hrows & Hrow & Hsym & Hdiag & Hbounds & _).
  exists m. repeat apply conj.
  - exact Hm.
  - exact Hlabels.
  - exact Hrows.
  - exact Hrow.
  - apply Hsym; repeat constructor.
  - apply Hdiag; [repeat constructor | vm_compute; reflexivity ..].
  - apply Hdiag; [repeat constructor | vm_compute; reflexivity ..].
  - apply Hbounds; [reflexivity | repeat constructor ..].
  - vm_compute in Hm. injection Hm as <-. vm_compute. reflexivity.
Defined.

(** The columns 1, 2, 3 and 1, 3, 2: ones on the diagonal, one half off it. *)
Example correlation_matrix_pair :
  DataFrame_corr true Demo.corr_other Sample.pair
  = Ok {| columns := [("x"%string, float64); ("y"%string, float64)];
          rows := [[CNum F64.one; CNum (F64.of_ratio 1 2)];
                   [CNum (F64.of_ratio 1 2); CNum F64.one]] |}.
Proof. vm_compute. reflexivity. Qed.

(** Columns of non-zero variance whose diagonal entry is not 1.0.  For
    1e80, -1e80, 0 the variance is 1e160, the sum of squared deviations
    about 2e160, its square overflows, the divisor is [+inf] and the entry is
    0.0, with or without clipping.  For [2.0 ** -300], its opposite and 0 the
    square underflows to zero, the divisor is zero and the entry is NaN.
    And an entry above 1.0: without clipping the coefficient of the columns
    2, 2, 7 and 0, 0, 1 is 1.0000000000000002. *)
Lemma correlation_diagonal_not_one :
  numeric_only Sample.wide = true /\
  Series.var (column 0 (rows Sample.wide)) = F64.of_Z (10 ^ 160) /\
  DataFrame_corr true Demo.corr_other Sample.wide
  = Ok {| columns := [("x"%string, float64)]; rows := [[CNum F64.zero]] |} /\
  DataFrame_corr false Demo.corr_other Sample.wide
  = Ok {| columns := [("x"%string, float64)]; rows := [[CNum F64.zero]] |} /\
  numeric_only Sample.narrow = true /\
  F64.is_zero (Series.var (column 0 (rows Sample.narrow))) = false /\
  F64.isfinite (Series.var (column 0 (rows Sample.narrow))) = true /\
  DataFrame_corr true Demo.corr_other Sample.narrow
  = Ok {| columns := [("x"%string, float64)]; rows := [[CNum F64.nan]] |} /\
  DataFrame_corr false Demo.corr_other Sample.narrow
  = Ok {| columns := [("x"%string, float64)]; rows := [[CNum F64.nan]] |} /\
  numeric_only Sample.steps = true /\
  DataFrame_corr false Demo.corr_other Sample.steps
  = Ok {| columns := [("x"%string, float64); ("y"%string, float64)];
          rows := [[CNum F64.one; CNum (S754_finite false 4503599627370497 (-52))];
                   [CNum (S754_finite false 4503599627370497 (-52)); CNum F64.one]] |} /\
  F64.leb (S754_finite false 4503599627370497 (-52)) F64.one = false /\
  DataFrame_corr true Demo.corr_other Sample.steps
  = Ok {| columns := [("x"%string, float64); ("y"%string, float64)];
          rows := [[CNum F64.one; CNum F64.one]; [CNum F64.one; CNum F64.one]] |}.
Proof. vm_compute. repeat split. Qed.

(** ** Normalizing twice: samples *)

(** In binary64 the fixed point is reached up to the last bits: the column
    0.1, 0.2, 0.4, 0.7 normalized once has mean [2^-53] and standard deviation
    1; normalized twice, mean 0 and standard deviation 1. *)
Example normalization_binary64_sample :
  let once := Series.standardize Sample.fractions in
  let twice := Series.standardize once in
  Series.mean once = S754_finite false 4503599627370496 (-105) /\
  Series.std once = F64.of_Z 1 /\
  Series.mean twice = F64.zero /\
  Series.std twice = F64.of_Z 1.
Proof. vm_compute. repeat split. Qed.

Example standardize_ramp_binary64 :
  Series.standardize [F64.of_Z 1; F64.of_Z 2; F64.of_Z 3]
  = [F64.of_Z (-1); F64.zero; F64.of_Z 1].
Proof. vm_compute. reflexivity. Qed.

(** ** The model assembler *)

Lemma length_removelast {A : Type} (l : list A) :
  length (removelast l) = (length l - 1)%nat.
Proof.
  induction l as [|a [|b l] IH]; [reflexivity|reflexivity|].
  change (removelast (a :: b :: l)) with (a :: removelast (b :: l)).
  cbn [length] in *. rewrite IH. lia.
Qed.

Section ModelFacts.
Variable rng : Type.
Variable RandomState : Z -> rng.
Variable permutation : rng -> nat -> list nat * rng.

(** With an integer seed the split succeeds on two rows or more and leaves
    the process-wide generator alone, whatever the shuffle is. *)
Lemma split_data_succeeds (df : DataFrame) (global : rng) :
  (2 <= length (rows df))%nat ->
  exists s, split_data RandomState permutation df global = (Ok s, global) /\
            columns (X_train s) = removelast (columns df).
Proof.
  intros Hn. unfold split_data, split_rows, train_test_split, shuffle_split.
  replace (length (rows (iloc_features df))) with (length (rows df))
    by (unfold iloc_features; cbn [rows]; now rewrite length_map).
  destruct (validate_shuffle_split_ok _ Hn) as (n_train & n_test & E & _).
  rewrite E. cbn [check_random_state].
  destruct (permutation (RandomState 42) (length (rows df))) as [perm after].
  cbn [bind fst snd]. eexists. split; reflexivity.
Qed.

Lemma split_data_fails (df : DataFrame) (global : rng) :
  (length (rows df) < 2)%nat ->
  split_data RandomState permutation df global =
  (Raise {| class := ValueError;
            message := "the resulting train set will be empty" |}, global).
Proof.
  intros Hn. unfold split_data, split_rows, train_test_split, shuffle_split.
  replace (length (rows (iloc_features df))) with (length (rows df))
    by (unfold iloc_features; cbn [rows]; now rewrite length_map).
  now rewrite (validate_shuffle_split_small _ Hn).
Qed.

(** C3, as amended.  For every table with at least two columns and at
    least two rows, [build_ml_model] returns a model whose input width is
    the feature count (the column count minus one), whose layers are 64
    units with relu, 32 units with relu and 1 unit with sigmoid, compiled
    with the adam optimizer, binary cross-entropy loss and the accuracy
    metric; the process-wide generator is left as it was. *)
Theorem build_ml_model_specification :
  forall (self : DataAnalyzer) (df : DataFrame) (global : rng),
    processed_data self = Some df ->
    (2 <= length (columns df))%nat ->
    (2 <= length (rows df))%nat ->
    build_ml_model RandomState permutation self global =
    (Ok (Some {| input_shape := length (columns df) - 1;
                 layers := [ {| units := 64; activation := "relu" |};
                             {| units := 32; activation := "relu" |};
                             {| units := 1; activation := "sigmoid" |} ];
                 optimizer := Some "adam"%string;
                 loss := Some "binary_crossentropy"%string;
                 metrics := ["accuracy"%string] |}),
     global).
Proof.
  intros self df global Hdf Hcols Hrows. unfold build_ml_model. rewrite Hdf.
  replace (1 <? length (columns df))%nat with true
    by (symmetry; apply Nat.ltb_lt; lia).
  destruct (split_data_succeeds df global Hrows) as (s & E & Hc).
  rewrite E. cbn [bind]. rewrite Hc, length_removelast. reflexivity.
Qed.

(** C8. When no table exists, or the table has fewer than two columns,
    [build_ml_model] returns nothing ([None]) without splitting or building
    anything; the process-wide generator is left as it was. *)
Theorem build_ml_model_returns_nothing :
  forall (self : DataAnalyzer) (global : rng),
    (processed_data self = None \/
     exists df, processed_data self = Some df /\ (length (columns df) < 2)%nat) ->
    build_ml_model RandomState permutation self global = (Ok None, global).
Proof.
  intros self global [Hnone|(df & Hdf & Hcols)]; unfold build_ml_model.
  - now rewrite Hnone.
  - rewrite Hdf.
    replace (1 <? length (columns df))%nat with false
      by (symmetry; apply Nat.ltb_ge; lia).
    reflexivity.
Qed.
End ModelFacts.

Lemma build_ml_model_specification_witness :
  build_ml_model Sample.RandomState Sample.permutation
                 (Sample.analyzer "hundred.csv" Sample.hundred_rows) 7%nat =
  (Ok (Some {| input_shape := length (columns Sample.hundred_rows) - 1;
               layers := [ {| units := 64; activation := "relu" |};
                           {| units := 32; activation := "relu" |};
                           {| units := 1; activation := "sigmoid" |} ];
               optimizer := Some "adam"%string;
               loss := Some "binary_crossentropy"%string;
               metrics := ["accuracy"%string] |}),
   7%nat).
Proof.
  apply (build_ml_model_specification
           nat Sample.RandomState Sample.permutation
           (Sample.analyzer "hundred.csv" Sample.hundred_rows) Sample.hundred_rows 7%nat).
  - reflexivity.
  - vm_compute. repeat constructor.
  - vm_compute. repeat constructor.
Defined.

(** Two columns but a single row: the split raises before any model is
    assembled. *)
Lemma build_ml_model_single_row_raises :
  length (columns Sample.one_row) = 2%nat /\
  build_ml_model Sample.RandomState Sample.permutation
                 (Sample.analyzer "one.csv" Sample.one_row) 0%nat
  = (Raise {| class := ValueError;
              message := "the resulting train set will be empty" |}, 0%nat).
Proof. split; reflexivity. Qed.

Lemma build_ml_model_returns_nothing_witness :
  build_ml_model Sample.RandomState Sample.permutation
                 (Sample.analyzer "twos.csv" Sample.twos) 0%nat = (Ok None, 0%nat) /\
  build_ml_model Sample.RandomState Sample.permutation (init "data.xlsx") 0%nat
  = (Ok None, 0%nat).
Proof.
  split.
  - apply (build_ml_model_returns_nothing nat Sample.RandomState Sample.permutation).
    right. exists Sample.twos. split; [reflexivity|]. vm_compute. repeat constructor.
  - apply (build_ml_model_returns_nothing nat Sample.RandomState Sample.permutation).
    left. reflexivity.
Defined.

(** ** The external fetcher *)

Section FetcherFacts.
Variable requests_get : string -> Z -> result Response.

(** C2, as amended.  [fetch_external_data] returns the decoded payload
    when the status code is exactly 200 and the body decodes; on any other
    status code it returns [None] and prints nothing; when the request or
    the decoding raises a [RequestException] it prints the error and
    returns [None]; and no [RequestException] ever escapes it. *)
Theorem fetch_external_data_outcomes :
  forall api_url : string,
    let fetched := fetch_external_data requests_get api_url in
    (forall response payload,
        requests_get api_url 30%Z = Ok response ->
        status_code response = 200%Z ->
        json_body response = Ok payload ->
        fetched = (Ok payload, [])) /\
    (forall response,
        requests_get api_url 30%Z = Ok response ->
        status_code response <> 200%Z ->
        fetched = (Ok JNull, [])) /\
    (forall e,
        (requests_get api_url 30%Z = Raise e \/
         exists response, requests_get api_url 30%Z = Ok response /\
                          status_code response = 200%Z /\
                          json_body response = Raise e) ->
        is_RequestException e = true ->
        fetched = (Ok JNull, [("Error fetching data: " ++ message e)%string])) /\
    (forall e, fst fetched = Raise e -> is_RequestException e = false).
Proof.
  intros api_url fetched. subst fetched. unfold fetch_external_data.
  repeat apply conj.
  - intros response payload -> Hs Hj. cbn [bind]. rewrite Hs, Hj. reflexivity.
  - intros response -> Hs. cbn [bind].
    destruct (Z.eqb_spec (status_code response) 200); [contradiction|reflexivity].
  - intros e [->|(response & -> & Hs & Hj)] He; cbn [bind].
    + now rewrite He.
    + rewrite Hs, Hj. cbn [bind Z.eqb Pos.eqb]. now rewrite He.
  - intros e.
    destruct (requests_get api_url 30%Z) as [response|e0]; cbn [bind].
    + destruct (status_code response =? 200)%Z; [|discriminate].
      destruct (json_body response) as [v|e1]; cbn [bind]; [discriminate|].
      destruct (is_RequestException e1) eqn:E1; [discriminate|].
      cbn [fst]. intros H. injection H as <-. exact E1.
    + destruct (is_RequestException e0) eqn:E0; [discriminate|].
      cbn [fst]. intros H. injection H as <-. exact E0.
Qed.
End FetcherFacts.

Lemma fetch_external_data_outcomes_witness :
  fetch_external_data Sample.get_200 "https://api.github.com/users/octocat"
  = (Ok Sample.payload, []) /\
  fetch_external_data Sample.get_201 "https://api.github.com/users/octocat"
  = (Ok JNull, []) /\
  fetch_external_data Sample.unreachable "https://api.github.com/users/octocat"
  = (Ok JNull, ["Error fetching data: Max retries exceeded"%string]).
Proof.
  split; [|split].
  - apply (fetch_external_data_outcomes Sample.get_200 "https://api.github.com/users/octocat")
      with (response := {| status_code := 200; json_body := Ok Sample.payload |});
      reflexivity.
  - apply (fetch_external_data_outcomes Sample.get_201 "https://api.github.com/users/octocat")
      with (response := {| status_code := 201; json_body := Ok Sample.payload |});
      [reflexivity|discriminate].
  - apply (fetch_external_data_outcomes Sample.unreachable
             "https://api.github.com/users/octocat")
      with (e := {| class := ConnectionError; message := "Max retries exceeded" |});
      [left|]; reflexivity.
Defined.

(** A 201 answer with a decodable body: a success status, yet the payload is
    dropped and [None] is returned. *)
Lemma fetch_201_returns_none :
  exists response,
    Sample.get_201 "https://api.github.com/users/octocat" 30%Z = Ok response /\
    (200 <= status_code response < 300)%Z /\
    json_body response = Ok Sample.payload /\
    fetch_external_data Sample.get_201 "https://api.github.com/users/octocat"
    = (Ok JNull, []) /\
    Sample.payload <> JNull.
Proof.
  exists {| status_code := 201; json_body := Ok Sample.payload |}.
  repeat split; try discriminate; cbn; lia.
Qed.

(* ================================================================== *)
(** * Part III: further properties of the code                         *)
(* ================================================================== *)

(** ** Suffixes *)

Lemma string_length_append (p t : string) :
  String.length (p ++ t) = (String.length p + String.length t)%nat.
Proof. induction p as [|c p IH]; simpl; [reflexivity|now rewrite IH]. Qed.

Lemma substring_whole (t : string) : substring 0 (String.length t) t = t.
Proof. induction t as [|c t IH]; simpl; [reflexivity|now rewrite IH]. Qed.

Lemma substring_skip_prefix (p t : string) (m : nat) :
  substring (String.length p) m (p ++ t) = substring 0 m t.
Proof. induction p as [|c p IH]; simpl; [reflexivity|exact IH]. Qed.

Lemma substring_split (s : string) (k : nat) :
  (k <= String.length s)%nat ->
  s = (substring 0 k s ++ substring k (String.length s - k) s)%string.
Proof.
  revert k. induction s as [|c s IH]; intros [|k] Hk; simpl in *; try lia.
  - reflexivity.
  - now rewrite substring_whole.
  - rewrite <- IH by lia. reflexivity.
Qed.

(** [s.endswith(suffix)] holds exactly when [s] is some prefix followed by
    [suffix]. *)
Lemma endswith_iff (s suffix : string) :
  endswith s suffix = true <-> exists prefix, s = (prefix ++ suffix)%string.
Proof.
  unfold endswith. rewrite andb_true_iff, Nat.leb_le, String.eqb_eq. split.
  - intros [Hle E].
    exists (substring 0 (String.length s - String.length suffix) s).
    rewrite <- E at 2.
    rewrite (substring_split s (String.length s - String.length suffix)) at 1 by lia.
    do 2 f_equal. lia.
  - intros [prefix ->]. rewrite string_length_append. split; [lia|].
    replace (String.length prefix + String.length suffix - String.length suffix)%nat
      with (String.length prefix) by lia.
    rewrite substring_skip_prefix. apply substring_whole.
Qed.

Lemma append_same_length_inj (p q a b : string) :
  (p ++ a)%string = (q ++ b)%string -> String.length a = String.length b ->
  p = q /\ a = b.
Proof.
  intros E Hlen.
  assert (Hpq : String.length p = String.length q).
  { apply (f_equal String.length) in E. rewrite !string_length_append in E. lia. }
  clear Hlen. revert q E Hpq.
  induction p as [|c p IH]; intros [|d q] E Hpq; simpl in *; try discriminate.
  - now split.
  - injection E as -> E. destruct (IH q E) as [-> ->]; [congruence|now split].
Qed.

Lemma json_suffix_is_not_csv (prefix : string) :
  endswith (prefix ++ ".json") ".csv" = false.
Proof.
  destruct (endswith (prefix ++ ".json") ".csv") eqn:E; [|reflexivity].
  apply endswith_iff in E. destruct E as [q E].
  exfalso.
  replace (prefix ++ ".json")%string with ((prefix ++ ".") ++ "json")%string in E.
  - destruct (append_same_length_inj _ _ _ _ E eq_refl) as [_ Habs]. discriminate.
  - clear. induction prefix as [|c p IH]; simpl; [reflexivity|now rewrite IH].
Qed.

Section LoaderExtras.
Variable read_csv : string -> result DataFrame.
Variable json_load : string -> result json.
Variable DataFrame_other : json -> result DataFrame.

(** X1. The dispatch of [load_data] in terms of the source identifier itself:
    an identifier of the form [prefix ++ ".csv"] is read as delimited text,
    one of the form [prefix ++ ".json"] is decoded as JSON and never as
    delimited text, and an identifier of neither form leaves the analyzer as
    it is without touching any file. *)
Theorem load_data_by_extension :
  forall self : DataAnalyzer,
    let src := data_source self in
    let loaded := load_data read_csv json_load DataFrame_other self in
    (forall prefix, src = (prefix ++ ".csv")%string ->
       loaded = (df <- read_csv src ;; Ok (set_processed_data self df))) /\
    (forall prefix, src = (prefix ++ ".json")%string ->
       loaded = (raw_data <- json_load src ;;
                 df <- pd_DataFrame DataFrame_other raw_data ;;
                 Ok (set_processed_data self df))) /\
    ((forall prefix, src <> (prefix ++ ".csv")%string) ->
     (forall prefix, src <> (prefix ++ ".json")%string) ->
     loaded = Ok self).
Proof.
  intros self src loaded. subst loaded. unfold load_data. fold src.
  split; [|split].
  - intros prefix E.
    replace (endswith src ".csv") with true; [reflexivity|].
    symmetry. apply endswith_iff. now exists prefix.
  - intros prefix E.
    replace (endswith src ".csv") with false
      by (rewrite E; symmetry; apply json_suffix_is_not_csv).
    replace (endswith src ".json") with true; [reflexivity|].
    symmetry. apply endswith_iff. now exists prefix.
  - intros Hcsv Hjson.
    destruct (endswith src ".csv") eqn:E1.
    { apply endswith_iff in E1. destruct E1 as [p E1]. now apply Hcsv in E1. }
    destruct (endswith src ".json") eqn:E2.
    { apply endswith_iff in E2. destruct E2 as [p E2]. now apply Hjson in E2. }
    reflexivity.
Qed.
End LoaderExtras.

Lemma load_data_by_extension_witness :
  load_data Sample.read_csv Sample.json_load Sample.DataFrame_other (init "data.json")
  = (raw_data <- Sample.json_load "data.json" ;;
     df <- pd_DataFrame Sample.DataFrame_other raw_data ;;
     Ok (set_processed_data (init "data.json") df)).
Proof.
  apply (load_data_by_extension Sample.read_csv Sample.json_load Sample.DataFrame_other
                                (init "data.json")) with (prefix := "data"%string).
  reflexivity.
Defined.

(** ** Records with different keys *)






(** ** What cleaning leaves alone, and what a second cleaning does *)

Lemma nth_error_standardize_row_untouched sts r j :
  nth_error sts j = Some None ->
  nth_error (standardize_row sts r) j = nth_error r j.
Proof.
  revert r j. induction sts as [|s sts IH]; intros [|c r] [|j] Hs; simpl in *;
    try discriminate; try reflexivity.
  - now injection Hs as ->.
  - now apply IH.
Qed.

(** X4. Normalisation touches numeric columns only: in the cleaned table,
    every entry of a column of dtype [object] is the entry the surviving row
    had before, and the rows are the surviving rows in the same order. *)
Theorem clean_data_leaves_object_columns :
  forall (self : DataAnalyzer) (df : DataFrame) (j : nat) (name : string),
    processed_data self = Some df ->
    nth_error (columns df) j = Some (name, object) ->
    exists df',
      processed_data (clean_data self) = Some df' /\
      length (rows df') = length (rows (dropna df)) /\
      forall i r, nth_error (rows (dropna df)) i = Some r ->
                  exists r', nth_error (rows df') i = Some r' /\
                             nth_error r' j = nth_error r j.
Proof.
  intros self df j name Hdf Hcol. rewrite (clean_data_Some _ _ Hdf).
  eexists. split; [reflexivity|]. cbn [normalize rows].
  split; [apply length_map|].
  intros i r Hr. eexists. split; [apply map_nth_error; exact Hr|].
  apply nth_error_standardize_row_untouched. unfold column_stats.
  now rewrite (nth_error_stats_from _ 0 _ _ _ _ Hcol).
Qed.

Lemma clean_data_leaves_object_columns_witness :
  exists df',
    processed_data (clean_data (Sample.analyzer "gap.csv" Sample.with_gap)) = Some df' /\
    length (rows df') = length (rows (dropna Sample.with_gap)) /\
    forall i r, nth_error (rows (dropna Sample.with_gap)) i = Some r ->
                exists r', nth_error (rows df') i = Some r' /\
                           nth_error r' 1 = nth_error r 1.
Proof.
  apply (clean_data_leaves_object_columns
           (Sample.analyzer "gap.csv" Sample.with_gap) Sample.with_gap 1 "name");
    reflexivity.
Defined.

(** X5. After the row filter no row has a missing value, and filtering again
    changes nothing. *)
Theorem dropna_is_idempotent :
  forall df : DataFrame,
    Forall (fun r => has_missing r = false) (rows (dropna df)) /\
    dropna (dropna df) = dropna df.
Proof.
  intros df.
  assert (H : Forall (fun r => has_missing r = false) (rows (dropna df))).
  { unfold dropna. cbn [rows]. apply Forall_forall. intros r Hr.
    apply filter_In in Hr. destruct Hr as [_ Hr]. now apply negb_true_iff. }
  split; [exact H|].
  unfold dropna at 1. cbn [columns]. unfold dropna at 3. f_equal.
  apply filter_all. revert H. apply Forall_impl. intros r ->. reflexivity.
Qed.

(** A column that is NaN in every row makes the row filter drop every row. *)
Lemma dropna_all_nan_column (df : DataFrame) (j : nat) :
  Forall (fun r => nth_error r j = Some (CNum F64.nan)) (rows df) ->
  rows (dropna df) = [].
Proof.
  intros H. unfold dropna. cbn [rows].
  induction H as [|r rs Hr _ IH]; [reflexivity|]. cbn [filter].
  replace (has_missing r) with true; [exact IH|].
  symmetry. unfold has_missing. apply existsb_exists.
  exists (CNum F64.nan). split; [|reflexivity]. eapply nth_error_In. exact Hr.
Qed.

(** X6. [clean_data] is not idempotent.  When exactly one row survives the
    row filter and the table has a numeric column, the first cleaning turns
    that column into NaN, so a second cleaning drops the row: the table ends
    up with no rows at all. *)
Theorem clean_data_twice_single_row :
  forall (self : DataAnalyzer) (df : DataFrame) (r : list cell)
         (j : nat) (name : string) (c : cell),
    processed_data self = Some df ->
    rows (dropna df) = [r] ->
    nth_error (columns df) j = Some (name, float64) ->
    nth_error r j = Some c ->
    option_map rows (processed_data (clean_data (clean_data self))) = Some [].
Proof.
  intros self df r j name c Hdf Hrows Hcol Hc.
  rewrite (clean_data_Some _ _ (clean_data_Some _ _ Hdf)).
  cbn [option_map normalize rows].
  rewrite (dropna_all_nan_column (normalize (dropna df)) j); [reflexivity|].
  cbn [normalize rows]. rewrite Hrows. cbn [map]. constructor; [|constructor].
  rewrite (normalize_numeric_entry (dropna df) r j name c);
    [| rewrite Hrows; now left | exact Hcol | exact Hc].
  rewrite Hrows. cbn [column map]. now rewrite std_single, div_by_nan.
Qed.

Lemma clean_data_twice_single_row_witness :
  option_map rows
    (processed_data (clean_data (clean_data (Sample.analyzer "one.csv" Sample.one_row))))
  = Some [].
Proof.
  apply (clean_data_twice_single_row
           (Sample.analyzer "one.csv" Sample.one_row) Sample.one_row
           [Sample.num 7; Sample.num 1] 0 "x" (Sample.num 7));
    reflexivity.
Defined.

(** X7. The same happens with a constant numeric column whose computed mean
    equals the constant: the first cleaning turns the column into NaN and the
    second cleaning leaves no rows. *)
Theorem clean_data_twice_constant_column :
  forall (self : DataAnalyzer) (df : DataFrame) (j : nat) (name : string) (x : F64.t),
    processed_data self = Some df ->
    nth_error (columns df) j = Some (name, float64) ->
    Forall (fun r => nth_error r j = Some (CNum x)) (rows (dropna df)) ->
    F64.eqb (Series.mean (column j (rows (dropna df)))) x = true ->
    option_map rows (processed_data (clean_data (clean_data self))) = Some [].
Proof.
  intros self df j name x Hdf Hcol Hconst Hmean.
  rewrite (clean_data_Some _ _ (clean_data_Some _ _ Hdf)).
  cbn [option_map normalize rows].
  rewrite (dropna_all_nan_column (normalize (dropna df)) j); [reflexivity|].
  cbn [normalize rows]. apply Forall_map.
  assert (Hall : Forall (fun v => F64.eqb (Series.mean (column j (rows (dropna df)))) v = true)
                        (column j (rows (dropna df)))).
  { rewrite (column_constant j _ x Hconst). apply Forall_map, Forall_forall.
    intros r _. rewrite <- (column_constant j _ x Hconst). exact Hmean. }
  rewrite Forall_forall in *. intros r Hr.
  rewrite (normalize_numeric_entry (dropna df) r j name (CNum x));
    [| exact Hr | exact Hcol | now apply Hconst].
  do 2 f_equal. cbn [to_float]. apply div_zero_or_nan.
  - now apply sub_equal_zero_or_nan, eqb_sym.
  - apply std_of_constant. now apply Forall_forall.
Qed.

Lemma clean_data_twice_constant_column_witness :
  option_map rows
    (processed_data (clean_data (clean_data (Sample.analyzer "twos.csv" Sample.twos))))
  = Some [].
Proof.
  apply (clean_data_twice_constant_column
           (Sample.analyzer "twos.csv" Sample.twos) Sample.twos 0 "x" (F64.of_Z 2)).
  - reflexivity.
  - reflexivity.
  - vm_compute. repeat constructor.
  - vm_compute. reflexivity.
Defined.

(** ** More on the split and the model *)

Lemma take_map {A B : Type} (f : A -> B) (xs : list A) (positions : list nat) :
  take (map f xs) positions = map f (take xs positions).
Proof.
  unfold take. induction positions as [|i ps IH]; [reflexivity|].
  cbn [flat_map]. rewrite IH, map_app. f_equal.
  rewrite nth_error_map. destruct (nth_error xs i); reflexivity.
Qed.

Lemma combine_map_pair {A B C : Type} (f : A -> B) (g : A -> C) (l : list A) :
  combine (map f l) (map g l) = map (fun a => (f a, g a)) l.
Proof. induction l as [|a l IH]; simpl; [reflexivity|now rewrite IH]. Qed.

Section ModelExtras.
Variable rng : Type.
Variable RandomState : Z -> rng.
Variable permutation : rng -> nat -> list nat * rng.

(** X8. [build_ml_model] on a table with at least two columns but fewer
    than two rows does not return: [train_test_split] raises [ValueError]
    (the training set would be empty), and the process-wide generator is left
    as it was. *)
Theorem build_ml_model_raises_on_short_tables :
  forall (self : DataAnalyzer) (df : DataFrame) (global : rng),
    processed_data self = Some df ->
    (2 <= length (columns df))%nat ->
    (length (rows df) < 2)%nat ->
    build_ml_model RandomState permutation self global =
    (Raise {| class := ValueError;
              message := "the resulting train set will be empty" |}, global).
Proof.
  intros self df global Hdf Hcols Hrows. unfold build_ml_model. rewrite Hdf.
  replace (1 <? length (columns df))%nat with true
    by (symmetry; apply Nat.ltb_lt; lia).
  now rewrite (split_data_fails _ RandomState permutation df global Hrows).
Qed.

(** X9. Cleaning followed by model building is decided by the number of rows
    without a missing value: with fewer than two of them the call raises
    [ValueError], with two or more it returns the model whose input width is
    the column count minus one.  The size of the loaded table does not
    matter. *)
Theorem build_ml_model_after_cleaning :
  forall (self : DataAnalyzer) (df : DataFrame) (global : rng),
    processed_data self = Some df ->
    (2 <= length (columns df))%nat ->
    let complete := length (filter (fun r => negb (has_missing r)) (rows df)) in
    ((complete < 2)%nat ->
     build_ml_model RandomState permutation (clean_data self) global =
     (Raise {| class := ValueError;
               message := "the resulting train set will be empty" |}, global)) /\
    ((2 <= complete)%nat ->
     exists model,
       build_ml_model RandomState permutation (clean_data self) global
       = (Ok (Some model), global) /\
       input_shape model = (length (columns df) - 1)%nat /\
       map units (layers model) = [64; 32; 1]%nat).
Proof.
  intros self df global Hdf Hcols complete.
  pose proof (clean_data_Some _ _ Hdf) as Hclean.
  set (cleaned := normalize (dropna df)) in *.
  assert (Hn : length (rows cleaned) = complete).
  { subst cleaned. cbn [normalize rows]. rewrite length_map. reflexivity. }
  assert (Hc2 : (1 <? length (columns cleaned))%nat = true).
  { apply Nat.ltb_lt. subst cleaned. cbn [normalize columns dropna]. lia. }
  unfold build_ml_model. rewrite Hclean, Hc2.
  split; intros Hc.
  - rewrite (split_data_fails _ RandomState permutation cleaned global); [reflexivity|lia].
  - destruct (split_data_succeeds _ RandomState permutation cleaned global)
      as (s & E & Hs); [lia|].
    rewrite E. cbn [bind].
    eexists. split; [reflexivity|]. cbn [compile Sequential input_shape layers map units].
    split; [|reflexivity]. rewrite Hs. subst cleaned. cbn [normalize columns dropna].
    apply length_removelast.
Qed.

(** X11. The features and the targets are cut at the same positions: for a
    table whose rows are not empty, gluing each row of [X_train] to the entry
    of [y_train] beside it gives back the rows of the table at the training
    positions, and likewise for the evaluation part. *)
Theorem split_keeps_rows_aligned :
  forall (df : DataFrame) (global : rng),
    (2 <= length (rows df))%nat ->
    Forall (fun r => r <> []) (rows df) ->
    exists s,
      split_data RandomState permutation df global = (Ok s, global) /\
      map (fun xy => fst xy ++ [snd xy]) (combine (rows (X_train s)) (y_train s))
      = take (rows df) (train_index s) /\
      map (fun xy => fst xy ++ [snd xy]) (combine (rows (X_test s)) (y_test s))
      = take (rows df) (test_index s).
Proof.
  intros df global Hn Hne.
  assert (Hglue : forall positions,
             map (fun xy => fst xy ++ [snd xy])
                 (combine (take (rows (iloc_features df)) positions)
                          (take (iloc_target df) positions))
             = take (rows df) positions).
  { intros positions. unfold iloc_features, iloc_target. cbn [rows].
    rewrite !take_map, combine_map_pair, map_map. cbn [fst snd].
    rewrite <- (map_id (take (rows df) positions)) at 2.
    apply map_ext_in. intros r Hr. symmetry. apply app_removelast_last.
    unfold take in Hr. apply in_flat_map in Hr. destruct Hr as (i & _ & Hi).
    destruct (nth_error (rows df) i) as [r0|] eqn:E; [|destruct Hi].
    destruct Hi as [<-|[]]. rewrite Forall_forall in Hne.
    apply Hne. eapply nth_error_In. exact E. }
  unfold split_data, split_rows, train_test_split.
  destruct (shuffle_split RandomState permutation (length (rows (iloc_features df)))
                          0.2 (Some 42%Z) global) as [r g] eqn:E.
  assert (Hlen : length (rows (iloc_features df)) = length (rows df)).
  { unfold iloc_features. cbn [rows]. apply length_map. }
  rewrite Hlen in E. unfold shuffle_split in E.
  destruct (validate_shuffle_split_ok _ Hn) as (n_train & n_test & Ev & _).
  rewrite Ev in E. cbn [check_random_state] in E.
  destruct (permutation (RandomState 42) (length (rows df))) as [perm after].
  injection E as <- <-. cbn [bind fst snd].
  eexists. split; [reflexivity|].
  cbn [X_train X_test y_train y_test train_index test_index rows].
  split; apply Hglue.
Qed.
End ModelExtras.

Lemma build_ml_model_raises_on_short_tables_witness :
  build_ml_model Sample.RandomState Sample.permutation
                 (Sample.analyzer "one.csv" Sample.one_row) 3%nat =
  (Raise {| class := ValueError;
            message := "the resulting train set will be empty" |}, 3%nat).
Proof.
  apply (build_ml_model_raises_on_short_tables
           nat Sample.RandomState Sample.permutation
           (Sample.analyzer "one.csv" Sample.one_row) Sample.one_row 3%nat).
  - reflexivity.
  - vm_compute. repeat constructor.
  - vm_compute. repeat constructor.
Defined.

Lemma build_ml_model_after_cleaning_witness :
  exists model,
    build_ml_model Sample.RandomState Sample.permutation
                   (clean_data (Sample.analyzer "gap.csv" Sample.with_gap)) 3%nat
    = (Ok (Some model), 3%nat) /\
    input_shape model = (length (columns Sample.with_gap) - 1)%nat /\
    map units (layers model) = [64; 32; 1]%nat.
Proof.
  apply (build_ml_model_after_cleaning
           nat Sample.RandomState Sample.permutation
           (Sample.analyzer "gap.csv" Sample.with_gap) Sample.with_gap 3%nat).
  - reflexivity.
  - vm_compute. repeat constructor.
  - vm_compute. repeat constructor.
Defined.

Lemma split_keeps_rows_aligned_witness :
  exists s,
    split_data Sample.RandomState Sample.permutation Sample.hundred_rows 3%nat
    = (Ok s, 3%nat) /\
    map (fun xy => fst xy ++ [snd xy]) (combine (rows (X_train s)) (y_train s))
    = take (rows Sample.hundred_rows) (train_index s) /\
    map (fun xy => fst xy ++ [snd xy]) (combine (rows (X_test s)) (y_test s))
    = take (rows Sample.hundred_rows) (test_index s).
Proof.
  apply (split_keeps_rows_aligned nat Sample.RandomState Sample.permutation
                                  Sample.hundred_rows 3%nat).
  - vm_compute. repeat constructor.
  - unfold Sample.hundred_rows. cbn [rows]. apply Forall_map, Forall_forall.
    intros i _. discriminate.
Defined.

Section SplitExtras.
Variable rng : Type.
Variable RandomState : Z -> rng.
Variable permutation : rng -> nat -> list nat * rng.
Hypothesis permutation_shuffles :
  forall g n, Permutation (fst (permutation g n)) (seq 0 n).

(** X10. The sizes of the two parts for any row count [n >= 2]: the
    evaluation part has the ceiling of [n / 5] rows, the training part the
    rest, and the training part is never the smaller one. *)
Theorem split_sizes :
  forall (df : DataFrame) (seed : Z) (global : rng),
    let n := length (rows df) in
    (2 <= n)%nat ->
    exists s : Split,
      split_rows RandomState permutation seed df global = (Ok s, global) /\
      (n <= 5 * length (rows (X_test s)) < n + 5)%nat /\
      (length (rows (X_train s)) = n - length (rows (X_test s)))%nat /\
      (length (rows (X_test s)) <= length (rows (X_train s)))%nat /\
      length (y_test s) = length (rows (X_test s)) /\
      length (y_train s) = length (rows (X_train s)).
Proof.
  intros df seed global n Hn.
  destruct (shuffle_split_seeded rng RandomState permutation permutation_shuffles
                                 n seed global Hn)
    as (train & test & E & _ & _ & Hshare & _ & P).
  assert (Hfeat : length (rows (iloc_features df)) = n).
  { unfold iloc_features. cbn [rows]. apply length_map. }
  assert (Htarget : length (iloc_target df) = n).
  { unfold iloc_target. apply length_map. }
  assert (Hlen : (length train + length test = n)%nat).
  { rewrite <- length_app, (Permutation_length P). apply length_seq. }
  assert (Htk : forall (A : Type) (xs : list A) l,
             length xs = n -> (forall i, In i l -> In i (train ++ test)) ->
             length (take xs l) = length l).
  { intros A xs l Hxs Hl. apply length_take, Forall_forall.
    intros i Hi. rewrite Hxs. apply Hl in Hi.
    apply (Permutation_in _ P) in Hi. apply in_seq in Hi. lia. }
  assert (Htr : forall i, In i train -> In i (train ++ test))
    by (intros; apply in_or_app; auto).
  assert (Hte : forall i, In i test -> In i (train ++ test))
    by (intros; apply in_or_app; auto).
  unfold split_rows, train_test_split. rewrite Hfeat, E. cbn [bind fst snd].
  eexists. split; [reflexivity|].
  cbn [X_train X_test y_train y_test rows].
  rewrite !(Htk _ _ _ Hfeat), !(Htk _ _ _ Htarget) by assumption.
  repeat apply conj; try reflexivity; lia.
Qed.
End SplitExtras.

Lemma split_sizes_witness :
  exists s : Split,
    split_rows Sample.RandomState Sample.permutation 42 Sample.hundred_rows 7%nat
    = (Ok s, 7%nat) /\
    (100 <= 5 * length (rows (X_test s)) < 100 + 5)%nat /\
    (length (rows (X_train s)) = 100 - length (rows (X_test s)))%nat /\
    (length (rows (X_test s)) <= length (rows (X_train s)))%nat /\
    length (y_test s) = length (rows (X_test s)) /\
    length (y_train s) = length (rows (X_train s)).
Proof.
  apply (split_sizes nat Sample.RandomState Sample.permutation rotation_shuffles
                     Sample.hundred_rows 42 7%nat).
  vm_compute. repeat constructor.
Defined.

(** ** More on the fetcher *)

Section FetcherExtras.
Variable requests_get : string -> Z -> result Response.

(** X12. What [fetch_external_data] does not handle: an exception that is not
    a [RequestException], raised by the request or by the decoding of a 200
    response, escapes unchanged and nothing is printed.  And whenever
    something is printed, it is a single line and the value returned is
    [None]. *)
Theorem fetch_external_data_other_exceptions :
  forall api_url : string,
    let fetched := fetch_external_data requests_get api_url in
    (forall e,
        (requests_get api_url 30%Z = Raise e \/
         exists response, requests_get api_url 30%Z = Ok response /\
                          status_code response = 200%Z /\
                          json_body response = Raise e) ->
        is_RequestException e = false ->
        fetched = (Raise e, [])) /\
    (snd fetched <> [] -> fst fetched = Ok JNull /\ length (snd fetched) = 1%nat).
Proof.
  intros api_url fetched. subst fetched. unfold fetch_external_data. split.
  - intros e [->|(response & -> & Hs & Hj)] He; cbn [bind].
    + now rewrite He.
    + rewrite Hs, Hj. cbn [bind Z.eqb Pos.eqb]. now rewrite He.
  - destruct (requests_get api_url 30%Z) as [response|e0]; cbn [bind].
    + destruct (status_code response =? 200)%Z; [|intros H; now contradiction H].
      destruct (json_body response) as [v|e1]; cbn [bind];
        [intros H; now contradiction H|].
      destruct (is_RequestException e1); [now split|intros H; now contradiction H].
    + destruct (is_RequestException e0); [now split|intros H; now contradiction H].
Qed.
End FetcherExtras.

Lemma fetch_external_data_other_exceptions_witness :
  fetch_external_data Demo.get_interrupted "https://api.github.com/users/octocat"
  = (Raise Demo.interrupted, []).
Proof.
  apply (fetch_external_data_other_exceptions
           Demo.get_interrupted "https://api.github.com/users/octocat")
    with (e := Demo.interrupted).
  - left. reflexivity.
  - reflexivity.
Defined.

(** ** The service endpoint and the script *)

Lemma filter_filter_same {A : Type} (p : A -> bool) (l : list A) :
  filter p (filter p l) = filter p l.
Proof.
  induction l as [|a l IH]; [reflexivity|]. simpl.
  destruct (p a) eqn:E; simpl; [rewrite E|]; now rewrite IH.
Qed.

Lemma write_file_twice {image : Type} (path : string) (a b : image) fs :
  write_file path b (write_file path a fs) = write_file path b fs.
Proof.
  unfold write_file. f_equal. cbn [filter fst].
  rewrite String.eqb_refl. cbn [negb]. apply filter_filter_same.
Qed.

Lemma read_file_written {image : Type} (path : string) (a : image) fs :
  read_file path (write_file path a fs) = Some a.
Proof.
  unfold read_file, write_file. cbn [find fst]. now rewrite String.eqb_refl.
Qed.

Lemma length_write_file_twice {image : Type} (path : string) (a b : image) fs :
  length (write_file path b (write_file path a fs)) = length (write_file path a fs).
Proof.
  rewrite write_file_twice. unfold write_file. reflexivity.
Qed.

Section ServiceFacts.
Variable read_csv : string -> result DataFrame.
Variable json_load : string -> result json.
Variable DataFrame_other : json -> result DataFrame.
Variable image : Type.
Variable heatmap : DataFrame -> result image.
Variable rng : Type.
Variable RandomState : Z -> rng.
Variable permutation : rng -> nat -> list nat * rng.
Variable requests_get : string -> Z -> result Response.

Lemma load_csv_source (prefix : string) :
  load_data read_csv json_load DataFrame_other (init (prefix ++ ".csv")) =
  (df <- read_csv (prefix ++ ".csv") ;;
   Ok (set_processed_data (init (prefix ++ ".csv")) df)).
Proof.
  unfold load_data. cbn [init data_source].
  replace (endswith (prefix ++ ".csv") ".csv") with true; [reflexivity|].
  symmetry. apply endswith_iff. now exists prefix.
Qed.

Lemma bindM_lift {A B : Type} (r : result A) (k : A -> M image rng B) (w : World image rng) :
  bindM (lift r) k w = match r with Ok a => k a w | Raise e => (Raise e, w) end.
Proof. destruct r; reflexivity. Qed.

Lemma generate_visualizations_table (self : DataAnalyzer) (df : DataFrame)
      (w : World image rng) :
  processed_data self = Some df ->
  generate_visualizations heatmap self w =
  match heatmap df with
  | Ok figure =>
      (Ok tt, {| files := write_file "correlation_matrix.png" figure (files w);
                 stdout := stdout w;
                 np_random := np_random w |})
  | Raise e => (Raise e, w)
  end.
Proof.
  intros H. unfold generate_visualizations. rewrite H, bindM_lift.
  destruct (heatmap df); reflexivity.
Qed.

Lemma analyze_data_loaded (data_path : string) (a : DataAnalyzer) (df : DataFrame)
      (w : World image rng) :
  load_data read_csv json_load DataFrame_other (init data_path) = Ok a ->
  processed_data a = Some df ->
  analyze_data read_csv json_load DataFrame_other heatmap data_path w =
  match heatmap (normalize (dropna df)) with
  | Ok figure =>
      (Ok [("message", "Analysis completed successfully")]%string,
       {| files := write_file "correlation_matrix.png" figure (files w);
          stdout := stdout w;
          np_random := np_random w |})
  | Raise e => (Raise e, w)
  end.
Proof.
  intros Hload Hdf. unfold analyze_data. rewrite bindM_lift, Hload.
  unfold bindM at 1.
  rewrite (generate_visualizations_table (clean_data a) (normalize (dropna df)) w
             (clean_data_Some a df Hdf)).
  destruct (heatmap (normalize (dropna df))); reflexivity.
Qed.

(** X13. The endpoint answers "Analysis completed successfully" for a path
    with neither suffix, although nothing was loaded, cleaned or drawn: the
    files, the output and the generator are exactly as before. *)
Theorem analyze_data_unsupported_source :
  forall (data_path : string) (w : World image rng),
    (forall prefix, data_path <> (prefix ++ ".csv")%string) ->
    (forall prefix, data_path <> (prefix ++ ".json")%string) ->
    analyze_data read_csv json_load DataFrame_other heatmap data_path w =
    (Ok [("message", "Analysis completed successfully")]%string, w).
Proof.
  intros data_path w Hcsv Hjson. unfold analyze_data.
  rewrite bindM_lift. unfold load_data. cbn [init data_source].
  destruct (endswith data_path ".csv") eqn:E1.
  { apply endswith_iff in E1. destruct E1 as [p E1]. now apply Hcsv in E1. }
  destruct (endswith data_path ".json") eqn:E2.
  { apply endswith_iff in E2. destruct E2 as [p E2]. now apply Hjson in E2. }
  reflexivity.
Qed.

(** X14. The endpoint on a delimited-text source.  A loader error, or an
    error while drawing, is the caller's and leaves no file behind.
    Otherwise the picture saved at [correlation_matrix.png] is the one drawn
    from the cleaned table (not from the table as loaded), and nothing else
    in the world changes. *)
Theorem analyze_data_on_csv :
  forall (prefix : string) (w : World image rng),
    let path := (prefix ++ ".csv")%string in
    let run := analyze_data read_csv json_load DataFrame_other heatmap path w in
    (forall e, read_csv path = Raise e -> run = (Raise e, w)) /\
    (forall df e, read_csv path = Ok df ->
                  heatmap (normalize (dropna df)) = Raise e -> run = (Raise e, w)) /\
    (forall df figure,
        read_csv path = Ok df ->
        heatmap (normalize (dropna df)) = Ok figure ->
        run = (Ok [("message", "Analysis completed successfully")]%string,
               {| files := write_file "correlation_matrix.png" figure (files w);
                  stdout := stdout w;
                  np_random := np_random w |})).
Proof.
  intros prefix w path run. subst run path. repeat apply conj.
  - intros e He. unfold analyze_data.
    now rewrite bindM_lift, load_csv_source, He.
  - intros df e Hr Hh.
    rewrite (analyze_data_loaded _ (set_processed_data (init (prefix ++ ".csv")) df) df);
      [now rewrite Hh| now rewrite load_csv_source, Hr | reflexivity].
  - intros df figure Hr Hh.
    rewrite (analyze_data_loaded _ (set_processed_data (init (prefix ++ ".csv")) df) df);
      [now rewrite Hh| now rewrite load_csv_source, Hr | reflexivity].
Qed.

(** X15. The artifact is overwritten, not accumulated: after two successful
    analyses in a row the file holds the picture of the second one, and the
    directory has as many files as after the first. *)
Theorem analyze_data_overwrites_artifact :
  forall (p1 p2 : string) (w : World image rng) (df1 df2 : DataFrame)
         (figure1 figure2 : image),
    read_csv (p1 ++ ".csv") = Ok df1 ->
    heatmap (normalize (dropna df1)) = Ok figure1 ->
    read_csv (p2 ++ ".csv") = Ok df2 ->
    heatmap (normalize (dropna df2)) = Ok figure2 ->
    exists w1 w2,
      analyze_data read_csv json_load DataFrame_other heatmap (p1 ++ ".csv") w
      = (Ok [("message", "Analysis completed successfully")]%string, w1) /\
      analyze_data read_csv json_load DataFrame_other heatmap (p2 ++ ".csv") w1
      = (Ok [("message", "Analysis completed successfully")]%string, w2) /\
      read_file "correlation_matrix.png" (files w2) = Some figure2 /\
      length (files w2) = length (files w1) /\
      files w2 = write_file "correlation_matrix.png" figure2 (files w).
Proof.
  intros p1 p2 w df1 df2 figure1 figure2 H1 Hf1 H2 Hf2.
  assert (Hrun : forall p (w0 : World image rng) df figure,
             read_csv (p ++ ".csv") = Ok df ->
             heatmap (normalize (dropna df)) = Ok figure ->
             analyze_data read_csv json_load DataFrame_other heatmap (p ++ ".csv") w0
             = (Ok [("message", "Analysis completed successfully")]%string,
                {| files := write_file "correlation_matrix.png" figure (files w0);
                   stdout := stdout w0;
                   np_random := np_random w0 |})).
  { intros p w0 df figure Hr Hh.
    rewrite (analyze_data_loaded _ (set_processed_data (init (p ++ ".csv")) df) df);
      [now rewrite Hh| now rewrite load_csv_source, Hr | reflexivity]. }
  eexists. eexists. split; [exact (Hrun p1 w df1 figure1 H1 Hf1)|].
  split; [exact (Hrun p2 _ df2 figure2 H2 Hf2)|].
  cbn [files]. repeat apply conj.
  - apply read_file_written.
  - apply length_write_file_twice.
  - apply write_file_twice.
Qed.

Lemma build_ml_model_succeeds (self : DataAnalyzer) (df : DataFrame) (global : rng) :
  processed_data self = Some df ->
  (2 <= length (columns df))%nat ->
  (2 <= length (rows df))%nat ->
  exists model,
    build_ml_model RandomState permutation self global = (Ok (Some model), global).
Proof.
  intros Hdf Hcols Hrows. unfold build_ml_model. rewrite Hdf.
  replace (1 <? length (columns df))%nat with true
    by (symmetry; apply Nat.ltb_lt; lia).
  destruct (split_data_succeeds _ RandomState permutation df global Hrows) as (s & E & _).
  rewrite E. cbn [bind]. eexists. reflexivity.
Qed.

Lemma main_until_model (w : World image rng) (df : DataFrame) (figure : image) :
  read_csv "sample_data.csv" = Ok df ->
  heatmap (normalize (dropna df)) = Ok figure ->
  main read_csv json_load DataFrame_other heatmap RandomState permutation requests_get w =
  (model <~ build_ml_model_M RandomState permutation
                             (set_processed_data (init "sample_data.csv")
                                                 (normalize (dropna df))) ;;
   external_data <~ fetch_external_data_M requests_get
                      "https://api.github.com/users/octocat" ;;
   print "Data analysis completed successfully!")
    {| files := write_file "correlation_matrix.png" figure (files w);
       stdout := stdout w;
       np_random := np_random w |}.
Proof.
  intros Hr Hh. unfold main.
  pose proof (load_csv_source "sample_data") as Hload. cbn [append] in Hload.
  rewrite bindM_lift, Hload, Hr.
  cbn [bind]. unfold bindM at 1.
  rewrite (generate_visualizations_table _ (normalize (dropna df)) w
             (clean_data_Some (set_processed_data (init "sample_data.csv") df) df
                              eq_refl)).
  rewrite Hh. reflexivity.
Qed.

(** X16. A network failure is not fatal to the script: when the table loads,
    the heat map is drawn and the cleaned table has at least two columns and
    two rows, a [RequestException] from the request is printed and the script
    still ends with its success line, the heat map saved and the generator
    untouched. *)
Theorem main_survives_network_failure :
  forall (w : World image rng) (df : DataFrame) (figure : image) (e : exn),
    read_csv "sample_data.csv" = Ok df ->
    heatmap (normalize (dropna df)) = Ok figure ->
    (2 <= length (columns df))%nat ->
    (2 <= length (rows (dropna df)))%nat ->
    requests_get "https://api.github.com/users/octocat" 30%Z = Raise e ->
    is_RequestException e = true ->
    main read_csv json_load DataFrame_other heatmap RandomState permutation requests_get w =
    (Ok tt,
     {| files := write_file "correlation_matrix.png" figure (files w);
        stdout := (stdout w ++ [("Error fetching data: " ++ message e)%string])
                  ++ ["Data analysis completed successfully!"%string];
        np_random := np_random w |}).
Proof.
  intros w df figure e Hr Hh Hcols Hrows Hget He.
  rewrite (main_until_model w df figure Hr Hh).
  destruct (build_ml_model_succeeds
              (set_processed_data (init "sample_data.csv") (normalize (dropna df)))
              (normalize (dropna df)) (np_random w)) as (model & Hb);
    [reflexivity|exact Hcols| cbn [normalize rows]; now rewrite length_map|].
  unfold bindM at 1, build_ml_model_M. cbn [np_random files stdout]. rewrite Hb.
  unfold bindM, fetch_external_data_M, fetch_external_data, print.
  rewrite Hget. cbn [bind]. rewrite He. reflexivity.
Qed.

(** X17. With at least two columns but fewer than two complete rows the
    script stops with [ValueError] in the middle: the heat map has already
    been written, while nothing is fetched or printed. *)
Theorem main_stops_after_writing :
  forall (w : World image rng) (df : DataFrame) (figure : image),
    read_csv "sample_data.csv" = Ok df ->
    heatmap (normalize (dropna df)) = Ok figure ->
    (2 <= length (columns df))%nat ->
    (length (rows (dropna df)) < 2)%nat ->
    main read_csv json_load DataFrame_other heatmap RandomState permutation requests_get w =
    (Raise {| class := ValueError;
              message := "the resulting train set will be empty" |},
     {| files := write_file "correlation_matrix.png" figure (files w);
        stdout := stdout w;
        np_random := np_random w |}).
Proof.
  intros w df figure Hr Hh Hcols Hrows.
  rewrite (main_until_model w df figure Hr Hh).
  set (cleaned := normalize (dropna df)).
  assert (Hc2 : (1 <? length (columns cleaned))%nat = true).
  { apply Nat.ltb_lt. subst cleaned. cbn [normalize columns dropna]. lia. }
  assert (Hn : (length (rows cleaned) < 2)%nat).
  { subst cleaned. cbn [normalize rows]. now rewrite length_map. }
  unfold bindM at 1, build_ml_model_M, build_ml_model.
  cbn [np_random files stdout set_processed_data processed_data].
  rewrite Hc2, (split_data_fails _ RandomState permutation cleaned _ Hn).
  reflexivity.
Qed.
End ServiceFacts.

Lemma not_a_suffix (s suffix : string) :
  endswith s suffix = false -> forall prefix, s <> (prefix ++ suffix)%string.
Proof.
  intros H prefix E. assert (endswith s suffix = true) by (apply endswith_iff; eauto).
  congruence.
Qed.

Lemma analyze_data_unsupported_source_witness :
  analyze_data Demo.read_csv Sample.json_load Sample.DataFrame_other Demo.heatmap
               "data.xlsx" Demo.world
  = (Ok [("message", "Analysis completed successfully")]%string, Demo.world).
Proof.
  apply (analyze_data_unsupported_source
           Demo.read_csv Sample.json_load Sample.DataFrame_other _ Demo.heatmap nat
           "data.xlsx" Demo.world).
  - apply not_a_suffix. reflexivity.
  - apply not_a_suffix. reflexivity.
Defined.

Lemma analyze_data_on_csv_witness :
  analyze_data Demo.read_csv Sample.json_load Sample.DataFrame_other Demo.heatmap
               "gap.csv" Demo.world
  = (Raise {| class := ValueError; message := "could not convert string to float" |},
     Demo.world) /\
  analyze_data Demo.read_csv Sample.json_load Sample.DataFrame_other Demo.heatmap
               "sample_data.csv" Demo.world
  = (Ok [("message", "Analysis completed successfully")]%string,
     {| files := [("correlation_matrix.png"%string,
                   Demo.matrix_of (normalize (dropna Sample.hundred_rows)))];
        stdout := [];
        np_random := 0%nat |}).
Proof.
  split.
  - apply (analyze_data_on_csv
             Demo.read_csv Sample.json_load Sample.DataFrame_other _ Demo.heatmap nat
             "gap" Demo.world) with (df := Sample.with_gap); reflexivity.
  - apply (analyze_data_on_csv
             Demo.read_csv Sample.json_load Sample.DataFrame_other _ Demo.heatmap nat
             "sample_data" Demo.world) with (df := Sample.hundred_rows); reflexivity.
Defined.

Lemma analyze_data_overwrites_artifact_witness :
  exists w1 w2,
    analyze_data Demo.read_csv Sample.json_load Sample.DataFrame_other Demo.heatmap
                 "sample_data.csv" Demo.world
    = (Ok [("message", "Analysis completed successfully")]%string, w1) /\
    analyze_data Demo.read_csv Sample.json_load Sample.DataFrame_other Demo.heatmap
                 "short.csv" w1
    = (Ok [("message", "Analysis completed successfully")]%string, w2) /\
    read_file "correlation_matrix.png" (files w2)
    = Some (Demo.matrix_of (normalize (dropna Sample.one_row))) /\
    length (files w2) = length (files w1) /\
    files w2 = write_file "correlation_matrix.png"
                          (Demo.matrix_of (normalize (dropna Sample.one_row)))
                          (files Demo.world).
Proof.
  apply (analyze_data_overwrites_artifact
           Demo.read_csv Sample.json_load Sample.DataFrame_other _ Demo.heatmap nat
           "sample_data" "short" Demo.world Sample.hundred_rows Sample.one_row
           (Demo.matrix_of (normalize (dropna Sample.hundred_rows)))
           (Demo.matrix_of (normalize (dropna Sample.one_row))));
    reflexivity.
Defined.

Lemma main_survives_network_failure_witness :
  main Demo.read_csv Sample.json_load Sample.DataFrame_other Demo.heatmap
       Sample.RandomState Sample.permutation Sample.unreachable Demo.world =
  (Ok tt,
   {| files := write_file "correlation_matrix.png"
                          (Demo.matrix_of (normalize (dropna Sample.hundred_rows))) [];
      stdout := ([] ++ ["Error fetching data: Max retries exceeded"%string])
                ++ ["Data analysis completed successfully!"%string];
      np_random := 0%nat |}).
Proof.
  apply (main_survives_network_failure
           Demo.read_csv Sample.json_load Sample.DataFrame_other _ Demo.heatmap nat
           Sample.RandomState Sample.permutation Sample.unreachable
           Demo.world Sample.hundred_rows
           (Demo.matrix_of (normalize (dropna Sample.hundred_rows)))
           {| class := ConnectionError; message := "Max retries exceeded" |}).
  - reflexivity.
  - reflexivity.
  - vm_compute. repeat constructor.
  - vm_compute. repeat constructor.
  - reflexivity.
  - reflexivity.
Defined.

Lemma main_stops_after_writing_witness :
  main Demo.read_short Sample.json_load Sample.DataFrame_other Demo.heatmap
       Sample.RandomState Sample.permutation Sample.get_200 Demo.world =
  (Raise {| class := ValueError;
            message := "the resulting train set will be empty" |},
   {| files := write_file "correlation_matrix.png"
                          (Demo.matrix_of (normalize (dropna Sample.one_row))) [];
      stdout := [];
      np_random := 0%nat |}).
Proof.
  apply (main_stops_after_writing
           Demo.read_short Sample.json_load Sample.DataFrame_other _ Demo.heatmap nat
           Sample.RandomState Sample.permutation Sample.get_200
           Demo.world Sample.one_row
           (Demo.matrix_of (normalize (dropna Sample.one_row)))).
  - reflexivity.
  - reflexivity.
  - vm_compute. repeat constructor.
  - vm_compute. repeat constructor.
Defined.

(** ** Payments *)

(** X18. Which amounts [process_payment] accepts: exactly those between the
    minimum 0.50 and the maximum 999999.99 (both included), and NaN, which no
    comparison rejects.  The receipt echoes the amount and the currency, which
    is never checked; for a NaN amount it reports success with a NaN fee and
    a NaN net amount. *)
Theorem process_payment_acceptance :
  forall (timestamp : string) (amt : F64.t) (cur : string),
    ((exists receipt, Payment.process_payment timestamp amt cur = Ok receipt) <->
     (F64.is_nan amt = true \/
      (Payment.leb Payment.minimum_amount amt = true /\
       Payment.leb amt Payment.maximum_amount = true))) /\
    (forall receipt,
        Payment.process_payment timestamp amt cur = Ok receipt ->
        amount receipt = amt /\ currency receipt = cur /\
        fee receipt = F64.mul amt Payment.processing_fee /\
        net_amount receipt = F64.sub amt (fee receipt) /\
        (F64.is_nan amt = true ->
         F64.is_nan (fee receipt) = true /\ F64.is_nan (net_amount receipt) = true)).
Proof.
  intros timestamp amt cur. unfold Payment.process_payment. split.
  - destruct (F64.is_nan amt) eqn:Hnan.
    + destruct amt; try discriminate. cbn. split; [now left|].
      intros _. eexists. reflexivity.
    + assert (Hmin : F64.is_nan Payment.minimum_amount = false) by reflexivity.
      assert (Hmax : F64.is_nan Payment.maximum_amount = false) by reflexivity.
      pose proof (ltb_false_leb amt Payment.minimum_amount Hnan Hmin) as L1.
      pose proof (ltb_false_leb Payment.maximum_amount amt Hmax Hnan) as L2.
      destruct (Payment.ltb amt Payment.minimum_amount) eqn:E1.
      * split.
        -- intros [receipt H]. discriminate.
        -- intros [H|[H _]]; [discriminate|].
           destruct L1 as [_ L1]. specialize (L1 H). discriminate.
      * destruct (Payment.ltb Payment.maximum_amount amt) eqn:E2.
        -- split.
           ++ intros [receipt H]. discriminate.
           ++ intros [H|[_ H]]; [discriminate|].
              destruct L2 as [_ L2]. specialize (L2 H). discriminate.
        -- split.
           ++ intros _. right. split; [now apply L1|now apply L2].
           ++ intros _. eexists. reflexivity.
  - intros receipt H.
    destruct (Payment.ltb amt Payment.minimum_amount); [discriminate|].
    destruct (Payment.ltb Payment.maximum_amount amt); [discriminate|].
    injection H as <-. cbn [amount currency fee net_amount].
    repeat apply conj; try reflexivity.
    intros Hnan. destruct amt; try discriminate. split; reflexivity.
Qed.

Lemma process_payment_acceptance_witness :
  exists receipt,
    Payment.process_payment "20240101120000" (F64.of_Z 100) "USD" = Ok receipt.
Proof.
  apply (process_payment_acceptance "20240101120000" (F64.of_Z 100) "USD").
  right. split; reflexivity.
Defined.

(** On 100.00 the fee is the binary64 product [100 * 0.029], printed by
    Python as 2.9000000000000004, and the net amount is 97.1. *)
Example process_payment_hundred :
  option_map (fun r => (fee r, net_amount r))
             (match Payment.process_payment "20240101120000" (F64.of_Z 100) "USD" with
              | Ok r => Some r
              | Raise _ => None
              end)
  = Some (S754_finite false 6530219459687220 (-51),
          S754_finite false 6832805059651174 (-46)).
Proof. vm_compute. reflexivity. Qed.

(** ** The heat map of a table with a single row *)

Lemma fold_step_left_not_finite xs :
  Forall (fun v => F64.isfinite v = false) xs ->
  forall ys st, fold_left Corr.step (combine xs ys) st = st.
Proof.
  induction 1 as [|x xs Hx _ IH]; intros [|y ys] st; cbn [combine fold_left];
    try reflexivity.
  unfold Corr.step at 2. rewrite Hx. cbn [andb]. apply IH.
Qed.

Lemma fold_step_right_not_finite xs :
  Forall (fun v => F64.isfinite v = false) xs ->
  forall ys st, fold_left Corr.step (combine ys xs) st = st.
Proof.
  induction 1 as [|x xs Hx _ IH]; intros [|y ys] st; cbn [combine fold_left];
    try reflexivity.
  unfold Corr.step at 2. rewrite Hx, andb_false_r. apply IH.
Qed.

(** A column without a finite entry has no coefficient with any column. *)
Lemma coefficient_no_finite clips xs ys :
  Forall (fun v => F64.isfinite v = false) xs ->
  Corr.coefficient clips xs ys = F64.nan /\ Corr.coefficient clips ys xs = F64.nan.
Proof.
  intros H. unfold Corr.coefficient, Corr.welford.
  rewrite (fold_step_left_not_finite xs H), (fold_step_right_not_finite xs H).
  now split.
Qed.

Lemma numeric_only_nth df j c :
  numeric_only df = true -> nth_error (columns df) j = Some c ->
  c = (fst c, float64).
Proof.
  unfold numeric_only. intros H Hc. rewrite forallb_forall in H.
  specialize (H c (nth_error_In _ _ Hc)). destruct c as [name []]; [reflexivity|discriminate].
Qed.

Section HeatmapExtras.
Variable clips : bool.
Variable corr_other : DataFrame -> result DataFrame.

(** X20. Cleaning and correlating a table with a single complete row: when
    all columns are numeric, [df.corr()] of the cleaned table raises nothing
    and every one of its entries is NaN, the diagonal included, because the
    cleaning has left no finite number to correlate. *)
Theorem single_row_heat_map_is_nan :
  forall (self : DataAnalyzer) (df : DataFrame) (r : list cell),
    processed_data self = Some df ->
    numeric_only df = true ->
    rows (dropna df) = [r] ->
    exists cleaned m,
      processed_data (clean_data self) = Some cleaned /\
      DataFrame_corr clips corr_other cleaned = Ok m /\
      length (rows m) = length (columns df) /\
      forall i j, (i < length (columns df))%nat -> (j < length (columns df))%nat ->
                  entry m i j = F64.nan.
Proof.
  intros self df r Hdf Hnum Hrows.
  rewrite (clean_data_Some _ _ Hdf). do 2 eexists. split; [reflexivity|].
  unfold DataFrame_corr.
  change (numeric_only (normalize (dropna df))) with (numeric_only df). rewrite Hnum.
  split; [reflexivity|]. cbn [rows columns normalize dropna].
  split.
  { now rewrite length_map, length_nancorr, length_to_columns. }
  intros i j Hi Hj.
  rewrite entry_nancorr by (rewrite length_to_columns; exact Hi || exact Hj).
  assert (Hnan : forall k, (k < length (columns df))%nat ->
            Forall (fun v => F64.isfinite v = false)
                   (nth k (to_columns (normalize (dropna df))) [])).
  { intros k Hk. rewrite nth_to_columns by exact Hk.
    cbn [rows normalize]. rewrite Hrows. cbn [map column].
    constructor; [|constructor].
    destruct (nth_error (columns df) k) as [c|] eqn:Hc;
      [|apply nth_error_None in Hc; lia].
    rewrite (numeric_only_nth df k c Hnum Hc) in Hc.
    destruct (nth_error r k) as [x|] eqn:Hx.
    - erewrite nth_error_nth
        by (apply (normalize_numeric_entry (dropna df) r k (fst c) x);
            [rewrite Hrows; now left | exact Hc | exact Hx]).
      cbn [to_float]. rewrite Hrows. unfold column. cbn [map].
      rewrite std_single, div_by_nan. reflexivity.
    - rewrite nth_overflow; [reflexivity|].
      rewrite length_standardize_row. now apply nth_error_None. }
  unfold Corr.result_at.
  destruct (j <=? i)%nat.
  - apply (coefficient_no_finite clips _ _ (Hnan i Hi)).
  - apply (coefficient_no_finite clips _ _ (Hnan j Hj)).
Qed.
End HeatmapExtras.

Lemma single_row_heat_map_is_nan_witness :
  exists cleaned m,
    processed_data (clean_data (Sample.analyzer "one.csv" Sample.one_row)) = Some cleaned /\
    DataFrame_corr true Demo.corr_other cleaned = Ok m /\
    length (rows m) = length (columns Sample.one_row) /\
    forall i j, (i < length (columns Sample.one_row))%nat ->
                (j < length (columns Sample.one_row))%nat ->
                entry m i j = F64.nan.
Proof.
  apply (single_row_heat_map_is_nan true Demo.corr_other
           (Sample.analyzer "one.csv" Sample.one_row) Sample.one_row
           [Sample.num 7; Sample.num 1]); reflexivity.
Defined.
